(** * Data-availability certificates, keysets and the signed Redis cache

    A shallow embedding of [daprovider/das/dasutil/dasutil.go] and of the
    Redis storage service of package [das], with the properties of the
    certificate codec, the signature verifier, the batch recovery pipeline
    and the cache that the specification states.

    Conventions.
    - A Go [byte] (and [uint8]) is a [Byte.byte]; a [[]byte] is a [list byte].
    - A [uint64] is a [Z]; every place where Go wraps around is written
      with [wrap64].
    - A Go [(T, error)] result is a [result T]; a function that can panic
      returns a [go T].
    - Packages that the sources import but that are not part of the files
      embedded here (the BLS library, the tree hash, the header flags, the
      storage back ends) are interfaces: type classes whose methods are
      the calls the sources make. *)

From Stdlib Require Import Ascii String ZArith List Lia Bool.
From Stdlib.Strings Require Import Byte.
Import ListNotations.
Local Open Scope Z_scope.

(* ------------------------------------------------------------------ *)
(** ** Bytes and machine integers *)

Definition bytes := list byte.

Definition byte_to_Z (b : byte) : Z := Z.of_N (Byte.to_N b).

(** Conversion [byte(z)]: the low eight bits. *)
Definition Z_to_byte (z : Z) : byte :=
  match Byte.of_N (Z.to_N (z mod 256)) with
  | Some b => b
  | None => x00
  end.

Definition wrap64 (z : Z) : Z := z mod 2 ^ 64.

Definition is_uint64 (z : Z) : Prop := 0 <= z < 2 ^ 64.

Fixpoint bytes_eqb (a b : bytes) : bool :=
  match a, b with
  | [], [] => true
  | x :: a', y :: b' => Byte.eqb x y && bytes_eqb a' b'
  | _, _ => false
  end.

(** [binary.BigEndian.PutUint64]. *)
Definition PutUint64 (v : Z) : bytes :=
  [ Z_to_byte (Z.shiftr v 56); Z_to_byte (Z.shiftr v 48);
    Z_to_byte (Z.shiftr v 40); Z_to_byte (Z.shiftr v 32);
    Z_to_byte (Z.shiftr v 24); Z_to_byte (Z.shiftr v 16);
    Z_to_byte (Z.shiftr v 8);  Z_to_byte v ].

(** [binary.BigEndian.Uint64], on the eight bytes the callers hand it. *)
Definition Uint64 (b : bytes) : Z :=
  let at_ (i : nat) := byte_to_Z (nth i b x00) in
  Z.lor (at_ 7%nat)
   (Z.lor (Z.shiftl (at_ 6%nat) 8)
    (Z.lor (Z.shiftl (at_ 5%nat) 16)
     (Z.lor (Z.shiftl (at_ 4%nat) 24)
      (Z.lor (Z.shiftl (at_ 3%nat) 32)
       (Z.lor (Z.shiftl (at_ 2%nat) 40)
        (Z.lor (Z.shiftl (at_ 1%nat) 48)
               (Z.shiftl (at_ 0%nat) 56))))))).

(** The value a byte string denotes when read as a big-endian numeral. *)
Definition be_value (b : bytes) : Z :=
  fold_left (fun acc x => acc * 256 + byte_to_Z x) b 0.

(* ------------------------------------------------------------------ *)
(** ** Errors, results and panics *)

Inductive error : Type :=
| io_EOF
| io_ErrUnexpectedEOF
| errors_New (msg : string)
| ErrHashMismatch
| ErrSeqMsgValidation_keyset (cause : error) (keysetHash : bytes) (batchNum : Z)
| ErrExternal (code : Z).

Inductive result (A : Type) : Type :=
| Ok (a : A)
| Err (e : error).
Arguments Ok {A} a.
Arguments Err {A} e.

Inductive go (A : Type) : Type :=
| Panic
| Return (a : A).
Arguments Panic {A}.
Arguments Return {A} a.

Definition is_err {A} (r : result A) : bool :=
  match r with Ok _ => false | Err _ => true end.

(* ------------------------------------------------------------------ *)
(** ** Readers

    [bytes.NewReader(b)], also behind a [bufio.Reader]: the state of the
    reader is the input that is left. *)

Definition Reader (A : Type) : Type := bytes -> result (A * bytes).

Definition rret {A} (a : A) : Reader A := fun rd => Ok (a, rd).

Definition rfail {A} (e : error) : Reader A := fun _ => Err e.

Definition rbind {A B} (m : Reader A) (k : A -> Reader B) : Reader B :=
  fun rd =>
    match m rd with
    | Ok (a, rd') => k a rd'
    | Err e => Err e
    end.

Declare Scope reader_scope.
Delimit Scope reader_scope with reader.
Notation "x <- m ;; k" := (rbind m (fun x => k))
  (at level 61, m at next level, right associativity) : reader_scope.

(** [r.ReadByte()]. *)
Definition ReadByte : Reader byte :=
  fun rd =>
    match rd with
    | [] => Err io_EOF
    | b :: rd' => Ok (b, rd')
    end.

(** [io.ReadFull(r, buf)] with [len(buf) = n]: [EOF] when nothing could be
    read, [ErrUnexpectedEOF] when the input stops inside the buffer. *)
Definition ReadFull (n : nat) : Reader bytes :=
  fun rd =>
    match n with
    | O => Ok ([], rd)
    | _ =>
        match rd with
        | [] => Err io_EOF
        | _ => if (length rd <? n)%nat then Err io_ErrUnexpectedEOF
               else Ok (firstn n rd, skipn n rd)
        end
    end.

(** Run a reader computation on a byte string and drop what is left. *)
Definition run_reader {A} (m : Reader A) (input : bytes) : result A :=
  match m input with
  | Ok (a, _) => Ok a
  | Err e => Err e
  end.

(* ------------------------------------------------------------------ *)
(** ** Imported packages as interfaces *)

(** Package [blsSignatures]. *)
Class BlsSignatures : Type := {
  PublicKey : Type;
  Signature : Type;
  SignatureFromBytes : bytes -> result Signature;
  SignatureToBytes : Signature -> bytes;
  PublicKeyFromBytes : bytes -> bool -> result PublicKey;
  AggregatePublicKeys : list PublicKey -> PublicKey;
  bls_VerifySignature : Signature -> bytes -> PublicKey -> result bool
}.

(** Package [daprovider]: the header flags of a sequencer message. The
    two flag constants are declared outside the embedded files and are
    parameters. *)
Class HeaderFlags : Type := {
  DASMessageHeaderFlag : byte;
  TreeDASMessageHeaderFlag : byte
}.

(** [flags |= bits] on bytes. *)
Definition byte_or (a b : byte) : byte :=
  Z_to_byte (Z.lor (byte_to_Z a) (byte_to_Z b)).

(** All bits of [bits] are set in [checking]. *)
Definition hasBits (checking bits : byte) : bool :=
  Z.land (byte_to_Z checking) (byte_to_Z bits) =? byte_to_Z bits.

(** Modelled from the spec: [daprovider.IsDASMessageHeaderByte], which is
    not among the embedded files. The specification has deserialization
    reject a leading byte that lacks the DA header bit: the predicate
    holds when the header flag is set in the byte. *)
Definition IsDASMessageHeaderByte `{HeaderFlags} (header : byte) : bool :=
  hasBits header DASMessageHeaderFlag.

(** Modelled from the spec: [daprovider.IsTreeDASMessageHeaderByte], which
    is not among the embedded files. The specification has the version
    byte present if and only if the tree bit of the flags is set. *)
Definition IsTreeDASMessageHeaderByte `{HeaderFlags} (header : byte) : bool :=
  hasBits header TreeDASMessageHeaderFlag.

(* ------------------------------------------------------------------ *)
(** ** The certificate and its codec *)

Section Certificate.
Context `{bls : BlsSignatures} `{flags : HeaderFlags}.

Record DataAvailabilityCertificate : Type := {
  KeysetHash : bytes;
  DataHash : bytes;
  Timeout : Z;
  SignersMask : Z;
  Sig : Signature;
  Version : byte
}.

(** [c.Version != 0]. *)
Definition version_nonzero (v : byte) : bool := negb (byte_to_Z v =? 0).

Definition SerializeSignableFields (c : DataAvailabilityCertificate) : bytes :=
  let buf := [] in
  let buf := buf ++ DataHash c in
  let intData := PutUint64 (Timeout c) in
  let buf := buf ++ intData in
  let buf := if version_nonzero (Version c) then buf ++ [Version c] else buf in
  buf.

Definition Serialize (c : DataAvailabilityCertificate) : bytes :=
  let flags := DASMessageHeaderFlag in
  let flags := if version_nonzero (Version c)
               then byte_or flags TreeDASMessageHeaderFlag else flags in
  let buf := [] in
  let buf := buf ++ [flags] in
  let buf := buf ++ KeysetHash c in
  let buf := buf ++ SerializeSignableFields c in
  let intData := PutUint64 (SignersMask c) in
  let buf := buf ++ intData in
  buf ++ SignatureToBytes (Sig c).

Local Open Scope reader_scope.

Definition DeserializeDASCertFrom_reader : Reader DataAvailabilityCertificate :=
  header <- ReadByte ;;
  if negb (IsDASMessageHeaderByte header) then
    rfail (errors_New "tried to deserialize a message that doesn't have the DAS header")
  else
    keysetHash <- ReadFull 32 ;;
    dataHash <- ReadFull 32 ;;
    timeoutBuf <- ReadFull 8 ;;
    let timeout := Uint64 timeoutBuf in
    version <- (if IsTreeDASMessageHeaderByte header
                then (versionBuf <- ReadFull 1 ;; rret (nth 0 versionBuf x00))
                else rret x00) ;;
    signersMaskBuf <- ReadFull 8 ;;
    let signersMask := Uint64 signersMaskBuf in
    blsSignaturesBuf <- ReadFull 96 ;;
    match SignatureFromBytes blsSignaturesBuf with
    | Err e => rfail e
    | Ok sig =>
        rret {| KeysetHash := keysetHash; DataHash := dataHash;
                Timeout := timeout; SignersMask := signersMask;
                Sig := sig; Version := version |}
    end.

Definition DeserializeDASCertFrom (rd : bytes) : result DataAvailabilityCertificate :=
  run_reader DeserializeDASCertFrom_reader rd.

(** A certificate as the Go type has it: two 32-byte hashes, two
    [uint64] fields, and a signature that the BLS library writes as 96
    bytes and reads back. *)
Record well_formed_cert (c : DataAvailabilityCertificate) : Prop := {
  wf_keyset_hash : length (KeysetHash c) = 32%nat;
  wf_data_hash : length (DataHash c) = 32%nat;
  wf_timeout : is_uint64 (Timeout c);
  wf_signers_mask : is_uint64 (SignersMask c);
  wf_sig_len : length (SignatureToBytes (Sig c)) = 96%nat;
  wf_sig_valid : SignatureFromBytes (SignatureToBytes (Sig c)) = Ok (Sig c)
}.

End Certificate.

(* ------------------------------------------------------------------ *)
(** ** Keysets and the signature verifier *)

(** Modelled from the spec: [util.Uint64FromReader] of package
    [arbos/util], which the keyset codec calls and which is not among the
    embedded files. The wire format of the specification has both
    numbers of the keyset header as big-endian [u64]: eight bytes are read
    in full and decoded. *)
Definition Uint64FromReader : Reader Z :=
  rbind (ReadFull 8) (fun buf => rret (Uint64 buf)).

Section Keyset.
Context `{bls : BlsSignatures}.

Record DataAvailabilityKeyset : Type := {
  AssumedHonest : Z;
  PubKeys : list PublicKey
}.

Local Open Scope reader_scope.

(** The loop of [DeserializeKeyset]: [n] keys are still to be read. *)
Fixpoint read_pubkeys (n : nat) (assumeKeysetValid : bool) : Reader (list PublicKey) :=
  match n with
  | O => rret []
  | S n' =>
      buf2 <- ReadFull 2 ;;
      buf <- ReadFull (Z.to_nat (byte_to_Z (nth 0 buf2 x00) * 256
                                 + byte_to_Z (nth 1 buf2 x00))) ;;
      match PublicKeyFromBytes buf assumeKeysetValid with
      | Err e => rfail e
      | Ok pk =>
          rest <- read_pubkeys n' assumeKeysetValid ;;
          rret (pk :: rest)
      end
  end.

Definition DeserializeKeyset_reader (assumeKeysetValid : bool)
  : Reader DataAvailabilityKeyset :=
  assumedHonest <- Uint64FromReader ;;
  numKeys <- Uint64FromReader ;;
  if numKeys >? 64 then
    rfail (errors_New "too many keys in serialized DataAvailabilityKeyset")
  else
    pubkeys <- read_pubkeys (Z.to_nat numKeys) assumeKeysetValid ;;
    rret {| AssumedHonest := assumedHonest; PubKeys := pubkeys |}.

Definition DeserializeKeyset (rd : bytes) (assumeKeysetValid : bool)
  : result DataAvailabilityKeyset :=
  run_reader (DeserializeKeyset_reader assumeKeysetValid) rd.

(** [(1<<i)&signersMask != 0], the shift done in [uint64]. *)
Definition mask_bit (i : Z) (signersMask : Z) : bool :=
  negb (Z.land (wrap64 (Z.shiftl 1 i)) signersMask =? 0).

(** The loop of [VerifySignature], from index [i] on; the accumulators
    are the keys selected so far and the number of non-signers. *)
Fixpoint select_signers (i : Z) (pks : list PublicKey) (signersMask : Z)
    (pubkeys : list PublicKey) (numNonSigners : Z) : list PublicKey * Z :=
  match pks with
  | [] => (pubkeys, numNonSigners)
  | pk :: rest =>
      if mask_bit i signersMask
      then select_signers (i + 1) rest signersMask (pubkeys ++ [pk]) numNonSigners
      else select_signers (i + 1) rest signersMask pubkeys (wrap64 (numNonSigners + 1))
  end.

(** The method returns an [error]: [None] is [nil]. *)
Definition VerifySignature (keyset : DataAvailabilityKeyset) (signersMask : Z)
    (data : bytes) (sig : Signature) : option error :=
  let '(pubkeys, numNonSigners) :=
    select_signers 0 (PubKeys keyset) signersMask [] 0 in
  if numNonSigners >=? AssumedHonest keyset then
    Some (errors_New "not enough signers")
  else
    let aggregatedPubKey := AggregatePublicKeys pubkeys in
    match bls_VerifySignature sig data aggregatedPubKey with
    | Err e => Some e
    | Ok success =>
        if negb success then Some (errors_New "bad signature") else None
    end.

End Keyset.

(* ------------------------------------------------------------------ *)
(** ** Effects: calls to the outside, log lines, panics

    The stores, the keyset fetcher and Redis are oracles over a world
    [W] that they may change; every call and every log line is appended
    to a trace, so that the order and the number of calls can be stated. *)

Inductive log_level : Type := LvlTrace | LvlDebug | LvlWarn | LvlError.

Inductive PreimageType : Type :=
| Keccak256PreimageType | Sha2_256PreimageType | EthVersionedHashPreimageType.

Inductive event : Type :=
| Call_GetByHash (hash : bytes)
| Call_GetKeysetByHash (hash : bytes)
| Call_base_GetByHash (key : bytes)
| Call_base_Put (value : bytes) (timeout : Z)
| Call_redis_Get (key : bytes)
| Call_redis_Set (key value : bytes) (expiration : Z)
| Record_preimage (hash preimage : bytes) (ty : PreimageType)
| Record_hash_tree (preimage : bytes)
| Log (lvl : log_level) (msg : string).

Record state (W : Type) : Type := {
  ext : W;
  trace : list event
}.
Arguments ext {W} s.
Arguments trace {W} s.

Definition M (W A : Type) : Type := state W -> go (A * state W).

Definition ret {W A} (a : A) : M W A := fun st => Return (a, st).

Definition bind {W A B} (m : M W A) (k : A -> M W B) : M W B :=
  fun st =>
    match m st with
    | Panic => Panic
    | Return (a, st') => k a st'
    end.

Definition panic {W A} : M W A := fun _ => Panic.

Definition emit {W} (e : event) : M W unit :=
  fun st => Return (tt, {| ext := ext st; trace := trace st ++ [e] |}).

(** A call to an oracle [f], recorded as [e]. *)
Definition call {W A} (e : event) (f : W -> A * W) : M W A :=
  fun st =>
    let '(a, w') := f (ext st) in
    Return (a, {| ext := w'; trace := trace st ++ [e] |}).

Declare Scope effect_scope.
Delimit Scope effect_scope with effect.
Notation "x <- m ;; k" := (bind m (fun x => k))
  (at level 61, m at next level, right associativity) : effect_scope.
Notation "m ;;; k" := (bind m (fun _ => k))
  (at level 61, right associativity) : effect_scope.

(** [s[lo:]]: out of range when [lo > len(s)]. *)
Definition slice_from {W} (lo : nat) (s : bytes) : M W bytes :=
  if (length s <? lo)%nat then panic else ret (skipn lo s).

(** [s[lo:hi]] with [lo <= hi]: out of range when [hi > len(s)]. *)
Definition slice {W} (lo hi : nat) (s : bytes) : M W bytes :=
  if (length s <? hi)%nat then panic else ret (firstn (hi - lo) (skipn lo s)).

(** The interfaces [DASReader] and [DASKeysetFetcher]. *)
Class DASReader (W : Type) : Type := {
  GetByHash : bytes -> W -> result bytes * W
}.

Class DASKeysetFetcher (W : Type) : Type := {
  GetKeysetByHash : bytes -> W -> result bytes * W
}.

(** Packages [dastree] and [crypto]: the two hashing schemes and the
    bridge from the flat to the tree hash. *)
Class Hashing : Type := {
  Keccak256Hash : bytes -> bytes;
  dastree_Hash : bytes -> bytes;
  FlatHashToTreeHash : bytes -> bytes;
  FlatHashToTreeLeaf : bytes -> bytes
}.

Definition MinLifetimeSecondsForDataAvailabilityCert : Z := 7 * 24 * 60 * 60.

(* ------------------------------------------------------------------ *)
(** ** Batch recovery *)

Section Recovery.
Context `{bls : BlsSignatures} `{flags : HeaderFlags} `{hashing : Hashing}.
Context {W : Type} `{reader : DASReader W} `{fetcher : DASKeysetFetcher W}.

(** [daprovider.PreimagesMap] is a Go map, passed by reference: the
    value below is the reference ([None] is [nil]); what the recorder
    writes into the map are [Record_preimage] and [Record_hash_tree]
    events of the trace. *)
Variable PreimagesMap : Type.

(** The three results of recovery: payload, preimages, error. *)
Definition recovered : Type :=
  (option bytes * option PreimagesMap * option error)%type.

Definition soft_skip : recovered := (None, None, None).

Local Open Scope effect_scope.

(** The closure [getByHash] of [RecoverPayloadFromDasBatch]; it
    captures [version] and [dasReader]. *)
Definition getByHash (version : byte) (hash : bytes) : M W (result bytes) :=
  let newHash :=
    if byte_to_Z version =? 0 then FlatHashToTreeHash hash else hash in
  r <- call (Call_GetByHash newHash) (GetByHash newHash) ;;
  r <- (if is_err r && negb (bytes_eqb hash newHash)
        then emit (Log LvlDebug "error fetching new style hash, trying old") ;;;
             call (Call_GetByHash hash) (GetByHash hash)
        else ret r) ;;
  match r with
  | Err err => ret (Err err)
  | Ok preimage =>
      if ((byte_to_Z version =? 0)
            && negb (bytes_eqb (Keccak256Hash preimage) hash))
         || ((byte_to_Z version =? 1)
            && negb (bytes_eqb (dastree_Hash preimage) hash))
      then emit (Log LvlError "preimage mismatch for hash") ;;;
           ret (Err ErrHashMismatch)
      else ret (Ok preimage)
  end.

Definition RecoverPayloadFromDasBatch (batchNum : Z) (sequencerMsg : bytes)
    (preimages : option PreimagesMap) (validateSeqMsg : bool) : M W recovered :=
  let preimageRecorder :=
    match preimages with Some _ => true | None => false end in
  certBytes <- slice_from 40 sequencerMsg ;;
  match DeserializeDASCertFrom certBytes with
  | Err _ =>
      emit (Log LvlError "Failed to deserialize DAS message") ;;;
      ret soft_skip
  | Ok cert =>
      let version := Version cert in
      if byte_to_Z version >=? 2 then
        emit (Log LvlError "Your node software is probably out of date") ;;;
        ret soft_skip
      else
        r <- call (Call_GetKeysetByHash (KeysetHash cert))
                  (GetKeysetByHash (KeysetHash cert)) ;;
        match r with
        | Err err =>
            emit (Log LvlError "Couldn't get keyset") ;;;
            ret (None, None, Some err)
        | Ok keysetPreimage =>
            (if preimageRecorder
             then emit (Record_hash_tree keysetPreimage) else ret tt) ;;;
            match DeserializeKeyset keysetPreimage (negb validateSeqMsg) with
            | Err err =>
                ret (None, None,
                     Some (ErrSeqMsgValidation_keyset err (KeysetHash cert) batchNum))
            | Ok keyset =>
                match VerifySignature keyset (SignersMask cert)
                        (SerializeSignableFields cert) (Sig cert) with
                | Some _ =>
                    emit (Log LvlError "Bad signature on DAS batch") ;;;
                    ret soft_skip
                | None =>
                    tsBytes <- slice 8 16 sequencerMsg ;;
                    let maxTimestamp := Uint64 tsBytes in
                    if Timeout cert
                       <? wrap64 (maxTimestamp
                                  + MinLifetimeSecondsForDataAvailabilityCert)
                    then
                      emit (Log LvlError "Data availability cert expires too soon") ;;;
                      ret soft_skip
                    else
                      let dataHash := DataHash cert in
                      r <- getByHash version dataHash ;;
                      match r with
                      | Err err =>
                          emit (Log LvlError "Couldn't fetch DAS batch contents") ;;;
                          ret (None, None, Some err)
                      | Ok payload =>
                          (if preimageRecorder then
                             if byte_to_Z version =? 0 then
                               let treeLeaf := FlatHashToTreeLeaf dataHash in
                               emit (Record_preimage dataHash payload
                                       Keccak256PreimageType) ;;;
                               emit (Record_preimage (Keccak256Hash treeLeaf)
                                       treeLeaf Keccak256PreimageType)
                             else emit (Record_hash_tree payload)
                           else ret tt) ;;;
                          ret (Some payload, preimages, None)
                      end
                end
            end
        end
  end.

End Recovery.

(* ------------------------------------------------------------------ *)
(** ** The signed Redis cache *)

(** The storage service behind the cache, and the Redis client. *)
Class StorageService (W : Type) : Type := {
  base_GetByHash : bytes -> W -> result bytes * W;
  base_Put : bytes -> Z -> W -> option error * W
}.

Class RedisClient (W : Type) : Type := {
  client_Get : bytes -> W -> result bytes * W;
  client_Set : bytes -> bytes -> Z -> W -> option error * W
}.

(** What the constructor and the HMAC need from other packages:
    [redisutil.RedisClientFromURL] ([None]: a client was made),
    go-ethereum's [common.HexToHash], and the Keccak-256 HMAC
    ([hmac.New(sha3.NewLegacyKeccak256, key)], written, then summed). *)
Class CacheDeps : Type := {
  RedisClientFromURL : string -> option error;
  HexToHash : string -> bytes;
  hmac_keccak256 : bytes -> bytes -> bytes
}.

Record RedisConfig : Type := {
  Enable : bool;
  Url : string;
  Expiration : Z;
  KeyConfig : string
}.

Record RedisStorageService : Type := {
  redisConfig : RedisConfig;
  signingKey : bytes
}.

(** [common.Hash{}]. *)
Definition zero_hash : bytes := repeat x00 32.

Section RedisCache.
Context `{deps : CacheDeps} `{hashing : Hashing}.
Context {W : Type} `{base : StorageService W} `{client : RedisClient W}.

Definition NewRedisStorageService (redisConfig : RedisConfig)
  : result RedisStorageService :=
  match RedisClientFromURL (Url redisConfig) with
  | Some err => Err err
  | None =>
      let signingKey := HexToHash (KeyConfig redisConfig) in
      if bytes_eqb signingKey zero_hash then
        Err (errors_New "signing key file contents are not 32 bytes of hex")
      else
        Ok {| redisConfig := redisConfig; signingKey := signingKey |}
  end.

Definition verifyMessageSignature (rs : RedisStorageService) (data : bytes)
  : result bytes :=
  if (length data <? 32)%nat then
    Err (errors_New "data is too short to contain message signature")
  else
    let message := firstn (length data - 32) data in
    let haveHmac := skipn (length data - 32) data in
    let expectHmac := hmac_keccak256 (signingKey rs) message in
    if negb (bytes_eqb haveHmac expectHmac) then
      Err (errors_New "HMAC signature doesn't match expected value(s)")
    else Ok message.

Definition signMessage (rs : RedisStorageService) (message : bytes) : bytes :=
  message ++ hmac_keccak256 (signingKey rs) message.

Local Open Scope effect_scope.

Definition getVerifiedData (rs : RedisStorageService) (key : bytes)
  : M W (result bytes) :=
  r <- call (Call_redis_Get key) (client_Get key) ;;
  match r with
  | Err err =>
      emit (Log LvlError "das.RedisStorageService.getVerifiedData") ;;;
      ret (Err err)
  | Ok data =>
      match verifyMessageSignature rs data with
      | Err err => ret (Err err)
      | Ok data => ret (Ok data)
      end
  end.

Definition RedisStorageService_GetByHash (rs : RedisStorageService) (key : bytes)
  : M W (result bytes) :=
  emit (Log LvlTrace "das.RedisStorageService.GetByHash") ;;;
  r <- getVerifiedData rs key ;;
  match r with
  | Err _ =>
      r <- call (Call_base_GetByHash key) (base_GetByHash key) ;;
      match r with
      | Err err => ret (Err err)
      | Ok ret_ =>
          let value := signMessage rs ret_ in
          let ttl := Expiration (redisConfig rs) in
          e <- call (Call_redis_Set key value ttl) (client_Set key value ttl) ;;
          match e with
          | Some err => ret (Err err)
          | None => ret (Ok ret_)
          end
      end
  | Ok ret_ => ret (Ok ret_)
  end.

Definition RedisStorageService_Put (rs : RedisStorageService) (value : bytes)
    (timeout : Z) : M W (option error) :=
  emit (Log LvlTrace "das.RedisStorageService.Store") ;;;
  e <- call (Call_base_Put value timeout) (base_Put value timeout) ;;
  match e with
  | Some err => ret (Some err)
  | None =>
      let key := dastree_Hash value in
      let signed := signMessage rs value in
      let ttl := Expiration (redisConfig rs) in
      e <- call (Call_redis_Set key signed ttl) (client_Set key signed ttl) ;;
      match e with
      | Some err =>
          emit (Log LvlError "das.RedisStorageService.Store") ;;;
          ret (Some err)
      | None => ret None
      end
  end.

End RedisCache.

(* ------------------------------------------------------------------ *)
(** ** go-ethereum's [common.HexToHash]

    [HexToHash(s)] is [BytesToHash(FromHex(s))]: an optional [0x] prefix
    is dropped, a string of odd length gets a leading [0], the hex
    digits are decoded up to the first character that is not one (the
    error of [hex.DecodeString] is discarded), and the bytes are put at
    the right of a 32-byte array, cropped from the left when there are
    more than 32. *)

Definition fromHexChar (c : Ascii.ascii) : option Z :=
  let n := Z.of_N (Ascii.N_of_ascii c) in
  if (48 <=? n) && (n <=? 57) then Some (n - 48)
  else if (97 <=? n) && (n <=? 102) then Some (n - 97 + 10)
  else if (65 <=? n) && (n <=? 70) then Some (n - 65 + 10)
  else None.

Fixpoint string_to_list (s : string) : list Ascii.ascii :=
  match s with
  | EmptyString => []
  | String c s' => c :: string_to_list s'
  end.

(** [hex.DecodeString], keeping the bytes decoded before an error. *)
Fixpoint hex_decode (fuel : nat) (s : list Ascii.ascii) : bytes :=
  match fuel, s with
  | S fuel', p :: q :: rest =>
      match fromHexChar p, fromHexChar q with
      | Some a, Some b => Z_to_byte (Z.lor (Z.shiftl a 4) b) :: hex_decode fuel' rest
      | _, _ => []
      end
  | _, _ => []
  end.

Definition Hex2Bytes (s : list Ascii.ascii) : bytes := hex_decode (length s) s.

Definition has0xPrefix (s : list Ascii.ascii) : bool :=
  match s with
  | c0 :: c1 :: _ =>
      Ascii.eqb c0 "0"%char
      && (Ascii.eqb c1 "x"%char || Ascii.eqb c1 "X"%char)
  | _ => false
  end.

Definition FromHex (s : string) : bytes :=
  let s := string_to_list s in
  let s := if has0xPrefix s then skipn 2 s else s in
  let s := if Nat.eqb (length s mod 2) 1 then "0"%char :: s else s in
  Hex2Bytes s.

Definition BytesToHash (b : bytes) : bytes :=
  let b := if (32 <? length b)%nat then skipn (length b - 32) b else b in
  repeat x00 (32 - length b) ++ b.

Definition geth_HexToHash (s : string) : bytes := BytesToHash (FromHex s).

(* ------------------------------------------------------------------ *)
(** ** Concrete environments

    Small instances of the interfaces, on which the embedded functions
    can be run: a transparent signature scheme, prefix "hashes", stores
    that are association lists, a Redis that is down. *)

Definition pad_to (n : nat) (b : bytes) : bytes := firstn n (b ++ repeat x00 n).

#[local] Instance demo_bls : BlsSignatures := {|
  PublicKey := bytes;
  Signature := bytes;
  SignatureFromBytes := fun b => Ok b;
  SignatureToBytes := fun s => s;
  PublicKeyFromBytes := fun b _ => Ok b;
  AggregatePublicKeys := fun pks => concat pks;
  bls_VerifySignature := fun sig data pk =>
    Ok (bytes_eqb sig (pad_to 96 (pk ++ data)))
|}.

#[local] Instance demo_flags : HeaderFlags := {|
  DASMessageHeaderFlag := x80;
  TreeDASMessageHeaderFlag := x08
|}.

#[local] Instance demo_hashing : Hashing := {|
  Keccak256Hash := fun p => pad_to 32 (xff :: p);
  dastree_Hash := fun p => pad_to 32 (xfe :: p);
  FlatHashToTreeHash := fun h => pad_to 32 (xfd :: h);
  FlatHashToTreeLeaf := fun h => xfe :: h
|}.

(** A store: pairs of a hash and the bytes kept under it. *)
Definition store : Type := list (bytes * bytes).

Fixpoint store_lookup (h : bytes) (s : store) : result bytes :=
  match s with
  | [] => Err (ErrExternal 404)
  | (k, v) :: s' => if bytes_eqb k h then Ok v else store_lookup h s'
  end.

#[local] Instance demo_reader : DASReader store := {|
  GetByHash := fun h w => (store_lookup h w, w)
|}.

#[local] Instance demo_fetcher : DASKeysetFetcher store := {|
  GetKeysetByHash := fun h w => (store_lookup h w, w)
|}.

#[local] Instance demo_base : StorageService store := {|
  base_GetByHash := fun h w => (store_lookup h w, w);
  base_Put := fun v _ w => (None, (pad_to 32 (xfe :: v), v) :: w)
|}.

(** A Redis that cannot be reached: every command fails. *)
#[local] Instance redis_down : RedisClient store := {|
  client_Get := fun _ w => (Err (ErrExternal 111), w);
  client_Set := fun _ _ _ w => (Some (ErrExternal 111), w)
|}.

#[local] Instance demo_deps : CacheDeps := {|
  RedisClientFromURL := fun _ => None;
  HexToHash := geth_HexToHash;
  hmac_keccak256 := fun key msg => pad_to 32 (key ++ msg)
|}.

Definition init_state {W} (w : W) : state W := {| ext := w; trace := [] |}.

(** A keyset of one key, [assumed_honest = 1], in its wire format. *)
Definition demo_keyset_bytes : bytes :=
  PutUint64 1 ++ PutUint64 1 ++ [x00; x01; x2a].

Definition demo_keyset_hash : bytes := pad_to 32 (xfe :: demo_keyset_bytes).

Definition demo_payload : bytes := [xaa; xaa; xaa].

(** A version-1 certificate over [demo_payload], signed by the one key,
    with the given timeout and signers mask. *)
Definition demo_cert (timeout signersMask : Z)
  : @DataAvailabilityCertificate demo_bls :=
  let dataHash := pad_to 32 (xfe :: demo_payload) in
  {| KeysetHash := demo_keyset_hash;
     DataHash := dataHash;
     Timeout := timeout;
     SignersMask := signersMask;
     Sig := pad_to 96 ([x2a] ++ (dataHash ++ PutUint64 timeout ++ [x01]));
     Version := x01 |}.

(** A sequencer message: 8 bytes, the maximal timestamp, 24 bytes, then
    the certificate. *)
Definition demo_message (maxTimestamp : Z) (cert : bytes) : bytes :=
  repeat x00 8 ++ PutUint64 maxTimestamp ++ repeat x00 24 ++ cert.

Definition demo_store : store :=
  [ (demo_keyset_hash, demo_keyset_bytes);
    (pad_to 32 (xfe :: demo_payload), demo_payload) ].

(** A cache in front of [demo_base], with a one-byte key string. *)
Definition demo_rs : RedisStorageService :=
  {| redisConfig := {| Enable := true; Url := "redis://localhost:6379";
                       Expiration := 3600; KeyConfig := "01" |};
     signingKey := geth_HexToHash "01" |}.

(** Three sequencer messages over [demo_store]: an ordinary one; one
    whose signers mask has bit 1 set although the keyset has one key; one
    whose maximal timestamp is the largest [uint64]. *)
Definition msg_accepted : bytes :=
  demo_message 0 (Serialize (demo_cert 604800 1)).

Definition msg_mask_beyond : bytes :=
  demo_message 0 (Serialize (demo_cert 604800 3)).

Definition msg_overflow : bytes :=
  demo_message (2 ^ 64 - 1) (Serialize (demo_cert 604799 1)).

(** A message whose certificate has timeout 1. *)
Definition msg_too_soon : bytes :=
  demo_message 0 (Serialize (demo_cert 1 1)).

(** A flat hash of [demo_payload], and a store that has the payload
    under that hash only. *)
Definition demo_flat_hash : bytes := pad_to 32 (xff :: demo_payload).

Definition legacy_store : store := [ (demo_flat_hash, demo_payload) ].

Definition zero_key_config : RedisConfig :=
  {| Enable := true; Url := "redis://localhost:6379"; Expiration := 3600;
     KeyConfig :=
       "0000000000000000000000000000000000000000000000000000000000000000" |}.

(* ------------------------------------------------------------------ *)
(** ** Vocabulary of the statements *)

(** The hashes under which the reader was asked, in order. *)
Definition reader_calls (t : list event) : list bytes :=
  flat_map (fun e => match e with Call_GetByHash h => [h] | _ => [] end) t.

(** The number of positions [i], [from <= i < from + n], at which bit [i]
    of [signersMask] is clear: the committee members that did not sign. *)
Fixpoint non_signers (from : Z) (n : nat) (signersMask : Z) : Z :=
  match n with
  | O => 0
  | S n' =>
      (if Z.testbit signersMask from then 0 else 1)
      + non_signers (from + 1) n' signersMask
  end.

(** A mask has a bit at or beyond position [n]. *)
Definition has_bit_beyond (n : Z) (signersMask : Z) : Prop :=
  exists i, n <= i /\ Z.testbit signersMask i = true.

(* ------------------------------------------------------------------ *)
(** ** Keyset serialization and hashing *)

(** An [io.Writer]: [Write] appends to the writer or fails. *)
Class Writer (Wr : Type) : Type := {
  Write : bytes -> Wr -> option error * Wr
}.

(** A [bytes.Buffer]: writing appends and never fails. *)
#[local] Instance Buffer_Writer : Writer bytes := {|
  Write := fun p buf => (None, buf ++ p)
|}.

(** Modelled from the spec: [util.Uint64ToWriter] of package [arbos/util],
    which is not among the embedded files. The wire format of the
    specification has the numbers as big-endian [u64]: the eight bytes
    are handed to the writer in one [Write]. *)
Definition Uint64ToWriter {Wr} `{Writer Wr} (val : Z) (wr : Wr)
  : option error * Wr :=
  Write (PutUint64 val) wr.

(** [blsSignatures.PublicKeyToBytes]. *)
Class BlsEncoding `{bls : BlsSignatures} : Type := {
  PublicKeyToBytes : PublicKey -> bytes
}.

(** Modelled from the spec: [dastree.BinSize], declared outside the
    embedded files; the specification fixes the bin size at 64 KiB. *)
Definition BinSize : Z := 64 * 1024.

Section KeysetWriter.
Context `{enc : BlsEncoding} `{hashing : Hashing}.
Context {Wr : Type} `{writer : Writer Wr}.

(** The loop of the method [Serialize] of [DataAvailabilityKeyset]. *)
Fixpoint write_pubkeys (pks : list PublicKey) (wr : Wr) : option error * Wr :=
  match pks with
  | [] => (None, wr)
  | pk :: rest =>
      let pkBuf := PublicKeyToBytes pk in
      let buf := [ Z_to_byte (Z.of_nat (length pkBuf) / 256);
                   Z_to_byte (Z.of_nat (length pkBuf) mod 256) ] in
      match Write (buf ++ pkBuf) wr with
      | (Some err, wr') => (Some err, wr')
      | (None, wr') => write_pubkeys rest wr'
      end
  end.

Definition DataAvailabilityKeyset_Serialize (keyset : DataAvailabilityKeyset)
    (wr : Wr) : option error * Wr :=
  match Uint64ToWriter (AssumedHonest keyset) wr with
  | (Some err, wr') => (Some err, wr')
  | (None, wr') =>
      match Uint64ToWriter (wrap64 (Z.of_nat (length (PubKeys keyset)))) wr' with
      | (Some err, wr'') => (Some err, wr'')
      | (None, wr'') => write_pubkeys (PubKeys keyset) wr''
      end
  end.

End KeysetWriter.

Section KeysetHash.
Context `{enc : BlsEncoding} `{hashing : Hashing}.

Definition DataAvailabilityKeyset_Hash (keyset : DataAvailabilityKeyset)
  : result bytes :=
  match DataAvailabilityKeyset_Serialize keyset ([] : bytes) with
  | (Some err, _) => Err err
  | (None, wr) =>
      if BinSize <? Z.of_nat (length wr) then Err (errors_New "keyset too large")
      else Ok (dastree_Hash wr)
  end.

End KeysetHash.

(* ------------------------------------------------------------------ *)
(** ** Expiration policies *)

(** [type ExpirationPolicy int64], with the constants of the [iota]
    block. *)
Definition ExpirationPolicy : Type := Z.

Definition KeepForever : ExpirationPolicy := 0.
Definition DiscardAfterArchiveTimeout : ExpirationPolicy := 1.
Definition DiscardAfterDataTimeout : ExpirationPolicy := 2.
Definition MixedTimeout : ExpirationPolicy := 3.
Definition DiscardImmediately : ExpirationPolicy := 4.

(** [(ExpirationPolicy).String], with both results. *)
Definition ExpirationPolicy_String (ep : ExpirationPolicy) : string * option error :=
  if ep =? KeepForever then ("KeepForever"%string, None)
  else if ep =? DiscardAfterArchiveTimeout then ("DiscardAfterArchiveTimeout"%string, None)
  else if ep =? DiscardAfterDataTimeout then ("DiscardAfterDataTimeout"%string, None)
  else if ep =? MixedTimeout then ("MixedTimeout"%string, None)
  else if ep =? DiscardImmediately then ("DiscardImmediately"%string, None)
  else (""%string, Some (errors_New "unknown Expiration Policy")).

Definition StringToExpirationPolicy (s : string) : ExpirationPolicy * option error :=
  if String.eqb s "KeepForever" then (KeepForever, None)
  else if String.eqb s "DiscardAfterArchiveTimeout" then (DiscardAfterArchiveTimeout, None)
  else if String.eqb s "DiscardAfterDataTimeout" then (DiscardAfterDataTimeout, None)
  else if String.eqb s "MixedTimeout" then (MixedTimeout, None)
  else if String.eqb s "DiscardImmediately" then (DiscardImmediately, None)
  else (-1, Some (errors_New ("invalid Expiration Policy: " ++ s))).

(* ------------------------------------------------------------------ *)
(** ** The reader and the writer for nitro *)

(** A call to an oracle that the trace does not record. *)
Definition invoke {W A} (f : W -> A * W) : M W A :=
  fun st =>
    let '(a, w') := f (ext st) in
    Return (a, {| ext := w'; trace := trace st |}).

(** The interface [DASWriter], and [errors.Is(err, ErrBatchToDasFailed)]
    on the errors it returns. *)
Class DASWriter `{bls : BlsSignatures} (W : Type) : Type := {
  dasWriter_Store : bytes -> Z -> W -> result DataAvailabilityCertificate * W;
  is_ErrBatchToDasFailed : error -> bool
}.

Section ReaderWriterForDAS.
Context `{bls : BlsSignatures} `{flags : HeaderFlags} `{hashing : Hashing}.
Context {W : Type} `{reader : DASReader W} `{fetcher : DASKeysetFetcher W}.
Context `{dasWriter : !DASWriter W}.
Variable PreimagesMap : Type.

Definition readerForDAS_IsValidHeaderByte (headerByte : byte) : bool :=
  IsDASMessageHeaderByte headerByte.

Definition readerForDAS_RecoverPayloadFromBatch (batchNum : Z)
    (batchBlockHash : bytes) (sequencerMsg : bytes)
    (preimages : option PreimagesMap) (validateSeqMsg : bool)
  : M W (recovered PreimagesMap) :=
  RecoverPayloadFromDasBatch PreimagesMap batchNum sequencerMsg preimages
    validateSeqMsg.

Local Open Scope effect_scope.

Definition writerForDAS_Store (message : bytes) (timeout : Z)
    (disableFallbackStoreDataOnChain : bool) : M W (result bytes) :=
  r <- invoke (dasWriter_Store message timeout) ;;
  match r with
  | Err err =>
      if is_ErrBatchToDasFailed err then
        if disableFallbackStoreDataOnChain then
          ret (Err (errors_New
            "unable to batch to DAS and fallback storing data on chain is disabled"))
        else
          emit (Log LvlWarn "Falling back to storing data on chain") ;;;
          ret (Ok message)
      else ret (Err err)
  | Ok cert => ret (Ok (Serialize cert))
  end.

End ReaderWriterForDAS.

(** [dastree.ValidHash]. *)
Class HashValidation : Type := {
  ValidHash : bytes -> bytes -> bool
}.

Section RecoverKeyset.
Context `{bls : BlsSignatures} `{validation : HashValidation}.
Context {W : Type} `{reader : DASReader W}.

Local Open Scope effect_scope.

Definition RecoverKeyset (c : DataAvailabilityCertificate)
    (assumeKeysetValid : bool) : M W (result DataAvailabilityKeyset) :=
  r <- call (Call_GetByHash (KeysetHash c)) (GetByHash (KeysetHash c)) ;;
  match r with
  | Err err => ret (Err err)
  | Ok keysetBytes =>
      if negb (ValidHash (KeysetHash c) keysetBytes) then
        ret (Err (errors_New "keyset hash does not match cert"))
      else ret (DeserializeKeyset keysetBytes assumeKeysetValid)
  end.

End RecoverKeyset.

(* ------------------------------------------------------------------ *)
(** ** The rest of the Redis storage service *)

Class StorageServiceAdmin (W : Type) : Type := {
  base_Sync : W -> option error * W;
  base_Close : W -> option error * W;
  base_HealthCheck : W -> option error * W;
  base_ExpirationPolicy : W -> (ExpirationPolicy * option error) * W
}.

Class RedisClientAdmin (W : Type) : Type := {
  client_Close : W -> option error * W;
  client_Ping : W -> option error * W
}.

Section RedisAdmin.
Context {W : Type} `{base : StorageServiceAdmin W} `{client : RedisClientAdmin W}.

Local Open Scope effect_scope.

Definition RedisStorageService_Sync (rs : RedisStorageService)
  : M W (option error) :=
  invoke base_Sync.

Definition RedisStorageService_Close (rs : RedisStorageService)
  : M W (option error) :=
  e <- invoke client_Close ;;
  match e with
  | Some err => ret (Some err)
  | None => invoke base_Close
  end.

Definition RedisStorageService_ExpirationPolicy (rs : RedisStorageService)
  : M W (ExpirationPolicy * option error) :=
  invoke base_ExpirationPolicy.

Definition RedisStorageService_HealthCheck (rs : RedisStorageService)
  : M W (option error) :=
  e <- invoke client_Ping ;;
  match e with
  | Some err => ret (Some err)
  | None => invoke base_HealthCheck
  end.

End RedisAdmin.

(* ------------------------------------------------------------------ *)
(** ** More vocabulary *)

(** The keys at the positions, counted from [from], at which the mask
    has its bit set. *)
Fixpoint signing_keys {A} (from : Z) (pks : list A) (signersMask : Z) : list A :=
  match pks with
  | [] => []
  | pk :: rest =>
      (if Z.testbit signersMask from then [pk] else [])
      ++ signing_keys (from + 1) rest signersMask
  end.

(** What the preimage recorder was given, in order. *)
Definition recorded (t : list event) : list event :=
  filter (fun e => match e with
                   | Record_preimage _ _ _ | Record_hash_tree _ => true
                   | _ => false
                   end) t.

(** The calls to the outside, of any kind, in order. *)
Definition outside_calls (t : list event) : list event :=
  filter (fun e => match e with
                   | Record_preimage _ _ _ | Record_hash_tree _ | Log _ _ => false
                   | _ => true
                   end) t.

(** The serialization of a keyset into an empty buffer. *)
Definition keyset_bytes `{enc : BlsEncoding}
    (keyset : DataAvailabilityKeyset) : bytes :=
  snd (DataAvailabilityKeyset_Serialize keyset ([] : bytes)).

#[local] Instance demo_enc : BlsEncoding (bls := demo_bls) := {|
  PublicKeyToBytes := fun pk => pk
|}.

Definition demo_keyset : @DataAvailabilityKeyset demo_bls :=
  {| AssumedHonest := 1; PubKeys := [[x2a]] |}.

(** A reader computation that looks at a prefix of its input only: bytes
    appended to the input do not change what it returns, and are left
    over. *)
Definition ignores_rest {A} (m : Reader A) : Prop :=
  forall rd a r extra,
    m rd = Ok (a, r) -> m (rd ++ extra) = Ok (a, r ++ extra).

(** The number of bytes of the wire format of a keyset: two [u64], and
    per key a two-byte length and the bytes of the key. *)
Definition keyset_size `{enc : BlsEncoding}
    (keyset : DataAvailabilityKeyset) : nat :=
  (16 + list_sum (map (fun pk => 2 + length (PublicKeyToBytes pk))
                      (PubKeys keyset)))%nat.

(** A keyset of 65 keys. *)
Definition big_keyset : @DataAvailabilityKeyset demo_bls :=
  {| AssumedHonest := 1; PubKeys := repeat [x2a] 65 |}.

(** A keyset that assumes nobody honest. *)
Definition zero_honest_keyset : @DataAvailabilityKeyset demo_bls :=
  {| AssumedHonest := 0; PubKeys := [[x2a]] |}.

(** A message whose certificate has version 2, and a store that keeps
    other bytes under the data hash of [demo_cert]. *)
Definition msg_version2 : bytes :=
  demo_message 0
    (Serialize {| KeysetHash := demo_keyset_hash;
                  DataHash := DataHash (demo_cert 604800 1);
                  Timeout := 604800; SignersMask := 1;
                  Sig := Sig (demo_cert 604800 1); Version := x02 |}).

Definition wrong_store : store :=
  [ (DataHash (demo_cert 604800 1), [x00]) ].

(** A Redis that keeps its entries in the store, and a base store that
    refuses every value. *)
Definition redis_memory : RedisClient store := {|
  client_Get := fun key w => (store_lookup key w, w);
  client_Set := fun key value _ w => (None, (key, value) :: w)
|}.

Definition base_full : StorageService store := {|
  base_GetByHash := fun h w => (store_lookup h w, w);
  base_Put := fun _ _ w => (Some (ErrExternal 507), w)
|}.

(** A cache that holds the signed entry of [demo_payload]. *)
Definition cached_store : store :=
  [ (dastree_Hash (Hashing := demo_hashing) demo_payload,
     signMessage (deps := demo_deps) demo_rs demo_payload) ].

(** A DAS writer that signs everything with the one key of the demo
    keyset, and a hash validation by the tree hash. *)
Definition demo_writer : @DASWriter demo_bls store := {|
  dasWriter_Store := fun _ timeout w => (Ok (demo_cert timeout 1), w);
  is_ErrBatchToDasFailed := fun _ => false
|}.

Definition demo_validation : HashValidation := {|
  ValidHash := fun h preimage =>
    bytes_eqb h (dastree_Hash (Hashing := demo_hashing) preimage)
|}.

(** A Redis client that cannot be closed or pinged, and a base store
    whose every administrative call would empty the store. *)
Definition redis_admin_down : RedisClientAdmin store := {|
  client_Close := fun w => (Some (ErrExternal 111), w);
  client_Ping := fun w => (Some (ErrExternal 111), w)
|}.

Definition unreachable_admin : StorageServiceAdmin store := {|
  base_Sync := fun _ => (None, []);
  base_Close := fun _ => (None, []);
  base_HealthCheck := fun _ => (None, []);
  base_ExpirationPolicy := fun _ => ((KeepForever, None), [])
|}.

(* ------------------------------------------------------------------ *)
(** ** Tactics *)

(** Case analysis on the innermost [match] of the goal. *)
Ltac destruct_match_goal :=
  match goal with
  | |- context [match ?x with _ => _ end] =>
      lazymatch x with
      | context [match _ with _ => _ end] => fail
      | _ => destruct x eqn:?
      end
  end.

(* ================================================================== *)
(** * Properties *)

(* ------------------------------------------------------------------ *)
(** ** Bytes and big-endian integers *)

Lemma byte_to_Z_range (b : byte) : 0 <= byte_to_Z b < 256.
Proof.
  unfold byte_to_Z. pose proof (Byte.to_N_bounded b). lia.
Qed.

Lemma byte_to_Z_of_Z (z : Z) : byte_to_Z (Z_to_byte z) = z mod 256.
Proof.
  unfold Z_to_byte, byte_to_Z.
  assert (Hr : 0 <= z mod 256 < 256) by (apply Z.mod_pos_bound; lia).
  destruct (Byte.of_N (Z.to_N (z mod 256))) as [b|] eqn:E.
  - apply Byte.to_of_N in E. rewrite E. lia.
  - apply Byte.of_N_None_iff in E. lia.
Qed.

Lemma Z_to_byte_to_Z (b : byte) : Z_to_byte (byte_to_Z b) = b.
Proof.
  unfold Z_to_byte, byte_to_Z.
  pose proof (Byte.to_N_bounded b) as Hb.
  rewrite Z.mod_small by lia.
  rewrite N2Z.id, Byte.of_to_N. reflexivity.
Qed.

Lemma bytes_eqb_refl (a : bytes) : bytes_eqb a a = true.
Proof.
  induction a as [|x a IH]; simpl; [reflexivity|].
  rewrite IH, (Byte.byte_dec_lb eq_refl). reflexivity.
Qed.

Lemma bytes_eqb_eq (a b : bytes) : bytes_eqb a b = true <-> a = b.
Proof.
  split.
  - revert b. induction a as [|x a IH]; intros [|y b] H; simpl in H;
      try discriminate; [reflexivity|].
    apply andb_true_iff in H. destruct H as [Hx Hr].
    apply Byte.byte_dec_bl in Hx. f_equal; auto.
  - intros ->. apply bytes_eqb_refl.
Qed.

Lemma bytes_eqb_neq (a b : bytes) : bytes_eqb a b = false <-> a <> b.
Proof.
  split.
  - intros H E. apply bytes_eqb_eq in E. congruence.
  - intros H. destruct (bytes_eqb a b) eqn:E; [|reflexivity].
    apply bytes_eqb_eq in E. contradiction.
Qed.


Lemma lor_shiftl_low (x y k : Z) :
  0 <= k -> 0 <= x < 2 ^ k -> Z.lor x (Z.shiftl y k) = x + y * 2 ^ k.
Proof.
  intros Hk Hx.
  rewrite <- Z.shiftl_mul_pow2 by lia.
  pose proof (Z.add_lor_land x (Z.shiftl y k)) as Hadd.
  enough (Hland : Z.land x (Z.shiftl y k) = 0) by lia.
  apply Z.bits_inj'. intros n Hn.
  rewrite Z.land_spec, Z.bits_0.
  destruct (Z_lt_le_dec n k) as [Hlt|Hge].
  - rewrite Z.shiftl_spec_low by lia. apply andb_false_r.
  - destruct (Z.eq_dec x 0) as [Hx0|Hz]; [now rewrite Hx0, Z.bits_0|].
    rewrite Z.bits_above_log2; [reflexivity|lia|].
    assert (Z.log2 x < k) by (apply Z.log2_lt_pow2; lia). lia.
Qed.

(** On eight bytes, [Uint64] is the big-endian value. *)
Lemma Uint64_be_value (b0 b1 b2 b3 b4 b5 b6 b7 : byte) :
  Uint64 [b0; b1; b2; b3; b4; b5; b6; b7]
  = be_value [b0; b1; b2; b3; b4; b5; b6; b7].
Proof.
  unfold Uint64, be_value. cbn [nth fold_left].
  pose proof (byte_to_Z_range b0). pose proof (byte_to_Z_range b1).
  pose proof (byte_to_Z_range b2). pose proof (byte_to_Z_range b3).
  pose proof (byte_to_Z_range b4). pose proof (byte_to_Z_range b5).
  pose proof (byte_to_Z_range b6). pose proof (byte_to_Z_range b7).
  set (a0 := byte_to_Z b0) in *. set (a1 := byte_to_Z b1) in *.
  set (a2 := byte_to_Z b2) in *. set (a3 := byte_to_Z b3) in *.
  set (a4 := byte_to_Z b4) in *. set (a5 := byte_to_Z b5) in *.
  set (a6 := byte_to_Z b6) in *. set (a7 := byte_to_Z b7) in *.
  transitivity
    (Z.lor a7 (Z.shiftl (Z.lor a6 (Z.shiftl (Z.lor a5 (Z.shiftl
      (Z.lor a4 (Z.shiftl (Z.lor a3 (Z.shiftl (Z.lor a2 (Z.shiftl
        (Z.lor a1 (Z.shiftl a0 8)) 8)) 8)) 8)) 8)) 8)) 8)).
  - rewrite !Z.shiftl_lor, !Z.shiftl_shiftl by lia. reflexivity.
  - rewrite !lor_shiftl_low by lia. change (2 ^ 8) with 256. ring.
Qed.
Lemma Uint64_range (b : bytes) : is_uint64 (Uint64 b).
Proof.
  change (Uint64 b) with
    (Uint64 [nth 0 b x00; nth 1 b x00; nth 2 b x00; nth 3 b x00;
             nth 4 b x00; nth 5 b x00; nth 6 b x00; nth 7 b x00]).
  rewrite Uint64_be_value. unfold be_value, is_uint64. cbn [fold_left].
  pose proof (byte_to_Z_range (nth 0 b x00)).
  pose proof (byte_to_Z_range (nth 1 b x00)).
  pose proof (byte_to_Z_range (nth 2 b x00)).
  pose proof (byte_to_Z_range (nth 3 b x00)).
  pose proof (byte_to_Z_range (nth 4 b x00)).
  pose proof (byte_to_Z_range (nth 5 b x00)).
  pose proof (byte_to_Z_range (nth 6 b x00)).
  pose proof (byte_to_Z_range (nth 7 b x00)).
  change (2 ^ 64) with 18446744073709551616. lia.
Qed.

Lemma be_value_PutUint64 (v : Z) : be_value (PutUint64 v) = wrap64 v.
Proof.
  unfold be_value, PutUint64, wrap64. cbn [fold_left].
  rewrite !byte_to_Z_of_Z, !Z.shiftr_div_pow2 by lia.
  change (2 ^ 64) with (256 * (256 * (256 * (256 * (256 * (256 * (256 * 256))))))).
  change (2 ^ 56) with (256 * (256 * (256 * (256 * (256 * (256 * 256)))))).
  change (2 ^ 48) with (256 * (256 * (256 * (256 * (256 * 256))))).
  change (2 ^ 40) with (256 * (256 * (256 * (256 * 256)))).
  change (2 ^ 32) with (256 * (256 * (256 * 256))).
  change (2 ^ 24) with (256 * (256 * 256)).
  change (2 ^ 16) with (256 * 256).
  change (2 ^ 8) with 256.
  rewrite <- !Z.div_div by lia.
  set (d0 := v).
  set (d1 := d0 / 256). set (d2 := d1 / 256). set (d3 := d2 / 256).
  set (d4 := d3 / 256). set (d5 := d4 / 256). set (d6 := d5 / 256).
  set (d7 := d6 / 256).
  rewrite !Z.rem_mul_r by lia.
  fold d1. fold d2. fold d3. fold d4. fold d5. fold d6. fold d7.
  ring.
Qed.

(** Decoding is the inverse of encoding, up to the width of the type. *)
Lemma Uint64_PutUint64 (v : Z) : Uint64 (PutUint64 v) = wrap64 v.
Proof.
  unfold PutUint64. rewrite Uint64_be_value. apply be_value_PutUint64.
Qed.

Lemma wrap64_small (v : Z) : is_uint64 v -> wrap64 v = v.
Proof. intros H. apply Z.mod_small. exact H. Qed.

(* ------------------------------------------------------------------ *)
(** ** Readers and header bytes *)

Lemma ReadFull_app (n : nat) (a rest : bytes) :
  length a = n -> ReadFull n (a ++ rest) = Ok (a, rest).
Proof.
  intros Hlen. unfold ReadFull. destruct n as [|n'].
  - destruct a; [reflexivity|discriminate].
  - destruct a as [|x a']; [discriminate|]. cbn [app].
    change (x :: a' ++ rest) with ((x :: a') ++ rest).
    assert (Hlt : (length ((x :: a') ++ rest) <? S n')%nat = false).
    { apply Nat.ltb_ge. rewrite length_app. lia. }
    rewrite Hlt. rewrite <- Hlen.
    rewrite firstn_app, skipn_app, firstn_all, skipn_all, Nat.sub_diag.
    cbn [firstn skipn app]. rewrite app_nil_r. reflexivity.
Qed.



Lemma hasBits_self (b : byte) : hasBits b b = true.
Proof. unfold hasBits. rewrite Z.land_diag. apply Z.eqb_refl. Qed.

Lemma byte_or_to_Z (a b : byte) :
  byte_to_Z (byte_or a b) = Z.lor (byte_to_Z a) (byte_to_Z b).
Proof.
  unfold byte_or. rewrite byte_to_Z_of_Z.
  pose proof (byte_to_Z_range a) as Ha. pose proof (byte_to_Z_range b) as Hb.
  apply Z.mod_small. split; [apply Z.lor_nonneg; lia|].
  destruct (Z.eq_dec (Z.lor (byte_to_Z a) (byte_to_Z b)) 0) as [->|Hnz]; [lia|].
  assert (Hpos : 0 < Z.lor (byte_to_Z a) (byte_to_Z b)).
  { assert (0 <= Z.lor (byte_to_Z a) (byte_to_Z b)) by (apply Z.lor_nonneg; lia).
    lia. }
  change 256 with (2 ^ 8). apply Z.log2_lt_pow2; [exact Hpos|].
  rewrite Z.log2_lor by lia.
  assert (Hlog : forall x, 0 <= x < 256 -> Z.log2 x < 8).
  { intros x Hx. destruct (Z.eq_dec x 0) as [->|]; [reflexivity|].
    apply Z.log2_lt_pow2; lia. }
  specialize (Hlog _ Ha) as Hla. specialize (Hlog _ Hb) as Hlb. lia.
Qed.

Lemma hasBits_or_l (a b : byte) : hasBits (byte_or a b) a = true.
Proof.
  unfold hasBits. rewrite byte_or_to_Z. apply Z.eqb_eq.
  apply Z.bits_inj'. intros n Hn. rewrite Z.land_spec, Z.lor_spec.
  destruct (Z.testbit (byte_to_Z a) n), (Z.testbit (byte_to_Z b) n); reflexivity.
Qed.

Lemma hasBits_or_r (a b : byte) : hasBits (byte_or a b) b = true.
Proof.
  unfold hasBits. rewrite byte_or_to_Z. apply Z.eqb_eq.
  apply Z.bits_inj'. intros n Hn. rewrite Z.land_spec, Z.lor_spec.
  destruct (Z.testbit (byte_to_Z a) n), (Z.testbit (byte_to_Z b) n); reflexivity.
Qed.

Lemma version_nonzero_eqb (v : byte) :
  version_nonzero v = negb (Byte.eqb v x00).
Proof. destruct v; reflexivity. Qed.

(* ------------------------------------------------------------------ *)
(** ** The certificate codec *)

Section CertificateProperties.
Context `{bls : BlsSignatures} `{flags : HeaderFlags}.

(** C7. The signable bytes of a certificate are its data hash, then its
    timeout as eight big-endian bytes, then its version byte when and
    only when the version is not zero; the keyset hash and the signers
    mask do not enter them. *)
Theorem SerializeSignableFields_layout (c : DataAvailabilityCertificate) :
  SerializeSignableFields c
  = DataHash c ++ PutUint64 (Timeout c)
      ++ (if Byte.eqb (Version c) x00 then [] else [Version c])
  /\ length (PutUint64 (Timeout c)) = 8%nat
  /\ be_value (PutUint64 (Timeout c)) = wrap64 (Timeout c)
  /\ forall keysetHash signersMask,
       SerializeSignableFields
         {| KeysetHash := keysetHash; DataHash := DataHash c;
            Timeout := Timeout c; SignersMask := signersMask;
            Sig := Sig c; Version := Version c |}
       = SerializeSignableFields c.
Proof.
  repeat split.
  - unfold SerializeSignableFields. rewrite version_nonzero_eqb.
    destruct (Byte.eqb (Version c) x00); cbn [negb app].
    + rewrite app_nil_r. reflexivity.
    + rewrite <- app_assoc. reflexivity.
  - apply be_value_PutUint64.
Qed.

Lemma DeserializeDASCertFrom_Serialize (c : DataAvailabilityCertificate)
    (rest : bytes) :
  IsTreeDASMessageHeaderByte DASMessageHeaderFlag = false ->
  well_formed_cert c ->
  DeserializeDASCertFrom_reader (Serialize c ++ rest) = Ok (c, rest).
Proof.
  intros Hflag [Hk Hd Ht Hm Hsl Hsv].
  unfold Serialize, SerializeSignableFields, DeserializeDASCertFrom_reader.
  destruct c as [kh dh t m s v]; cbn [KeysetHash DataHash Timeout SignersMask
                                      Sig Version] in *.
  unfold rbind at 1. cbn [app ReadByte].
  destruct (version_nonzero v) eqn:Ev.
  - unfold IsDASMessageHeaderByte, IsTreeDASMessageHeaderByte.
    rewrite hasBits_or_l, hasBits_or_r. cbn [negb].
    repeat rewrite <- app_assoc.
    unfold rbind. rewrite (ReadFull_app 32 kh) by assumption.
    rewrite (ReadFull_app 32 dh) by assumption.
    rewrite (ReadFull_app 8 (PutUint64 t)) by reflexivity.
    rewrite (ReadFull_app 1 [v]) by reflexivity.
    unfold rret at 1.
    rewrite (ReadFull_app 8 (PutUint64 m)) by reflexivity.
    rewrite (ReadFull_app 96 (SignatureToBytes s)) by assumption.
    rewrite Hsv. unfold rret. cbn [nth].
    rewrite !Uint64_PutUint64, !wrap64_small by assumption. reflexivity.
  - unfold IsDASMessageHeaderByte. rewrite hasBits_self. cbn [negb].
    rewrite Hflag.
    repeat rewrite <- app_assoc.
    unfold rbind. rewrite (ReadFull_app 32 kh) by assumption.
    rewrite (ReadFull_app 32 dh) by assumption.
    rewrite (ReadFull_app 8 (PutUint64 t)) by reflexivity.
    unfold rret at 1. 
    rewrite (ReadFull_app 8 (PutUint64 m)) by reflexivity.
    rewrite (ReadFull_app 96 (SignatureToBytes s)) by assumption.
    rewrite Hsv. unfold rret.
    rewrite !Uint64_PutUint64, !wrap64_small by assumption.
    rewrite version_nonzero_eqb in Ev. apply negb_false_iff in Ev.
    apply Byte.byte_dec_bl in Ev. subst v. reflexivity.
Qed.

(** C6. Deserializing the serialization of a well-formed certificate, of
    any version, succeeds and gives the certificate back, field by
    field. The tree flag is not among the bits of the header flag. *)
Theorem Serialize_roundtrip (c : DataAvailabilityCertificate) :
  IsTreeDASMessageHeaderByte DASMessageHeaderFlag = false ->
  well_formed_cert c ->
  DeserializeDASCertFrom (Serialize c) = Ok c.
Proof.
  intros Hflag Hwf. unfold DeserializeDASCertFrom, run_reader.
  rewrite <- (app_nil_r (Serialize c)).
  rewrite DeserializeDASCertFrom_Serialize by assumption. reflexivity.
Qed.

End CertificateProperties.

Lemma demo_cert_well_formed :
  well_formed_cert (demo_cert 604800 1).
Proof. split; try reflexivity; unfold is_uint64; cbn; lia. Qed.

Lemma Serialize_roundtrip_witness :
  DeserializeDASCertFrom (Serialize (demo_cert 604800 1))
  = Ok (demo_cert 604800 1).
Proof.
  apply (@Serialize_roundtrip demo_bls demo_flags (demo_cert 604800 1)).
  - reflexivity.
  - exact demo_cert_well_formed.
Defined.

(* ------------------------------------------------------------------ *)
(** ** Keysets *)

Lemma ReadFull_long (n : nat) (rd : bytes) :
  (n <= length rd)%nat -> ReadFull n rd = Ok (firstn n rd, skipn n rd).
Proof.
  intros H. unfold ReadFull. destruct n as [|n']; [reflexivity|].
  destruct rd as [|x rd']; [simpl in H; lia|].
  apply Nat.ltb_ge in H. rewrite H. reflexivity.
Qed.

Section KeysetProperties.
Context `{bls : BlsSignatures}.

(** C9. A keyset whose [num_keys] field, the second big-endian [u64] of
    the input, is greater than 64 is rejected. *)
Theorem DeserializeKeyset_too_many_keys (rd : bytes) (assumeKeysetValid : bool) :
  (16 <= length rd)%nat ->
  64 < Uint64 (firstn 8 (skipn 8 rd)) ->
  DeserializeKeyset rd assumeKeysetValid
  = Err (errors_New "too many keys in serialized DataAvailabilityKeyset").
Proof.
  intros Hlen Hnum.
  unfold DeserializeKeyset, run_reader, DeserializeKeyset_reader,
    Uint64FromReader, rbind, rret.
  rewrite ReadFull_long by lia.
  rewrite ReadFull_long by (rewrite length_skipn; lia).
  assert (Hgt : (Uint64 (firstn 8 (skipn 8 rd)) >? 64) = true)
    by (apply Z.gtb_lt; exact Hnum).
  rewrite Hgt. reflexivity.
Qed.

Lemma read_pubkeys_length (n : nat) (v : bool) (rd rest : bytes)
    (pks : list PublicKey) :
  read_pubkeys n v rd = Ok (pks, rest) -> length pks = n.
Proof.
  revert rd rest pks. induction n as [|n IH]; intros rd rest pks H.
  - inversion H. reflexivity.
  - cbn [read_pubkeys] in H. unfold rbind at 1 in H.
    destruct (ReadFull 2 rd) as [[buf2 rd1]|]; [|discriminate].
    unfold rbind at 1 in H.
    destruct (ReadFull _ rd1) as [[buf rd2]|]; [|discriminate].
    destruct (PublicKeyFromBytes buf v) as [pk|]; [|discriminate].
    unfold rbind in H.
    destruct (read_pubkeys n v rd2) as [[tl rd3]|] eqn:E; [|discriminate].
    inversion H. subst. cbn [length]. f_equal. eapply IH. exact E.
Qed.

(** A keyset that deserializes has at most 64 keys. *)
Lemma DeserializeKeyset_at_most_64 (rd : bytes) (v : bool)
    (keyset : DataAvailabilityKeyset) :
  DeserializeKeyset rd v = Ok keyset ->
  (length (PubKeys keyset) <= 64)%nat.
Proof.
  unfold DeserializeKeyset, run_reader, DeserializeKeyset_reader,
    Uint64FromReader.
  unfold rbind at 1 2. 
  destruct (ReadFull 8 rd) as [[b1 rd1]|]; [|discriminate].
  unfold rret at 1. unfold rbind at 1 2.
  destruct (ReadFull 8 rd1) as [[b2 rd2]|]; [|discriminate].
  unfold rret at 1.
  pose proof (Uint64_range b2) as Hr.
  destruct (Uint64 b2 >? 64) eqn:Egt; [discriminate|].
  unfold rbind.
  destruct (read_pubkeys _ v rd2) as [[pks rd3]|] eqn:E; [|discriminate].
  unfold rret. intros H. inversion H. subst. cbn [PubKeys].
  apply read_pubkeys_length in E. rewrite E.
  assert (Uint64 b2 <= 64) by (destruct (Z.gtb_spec (Uint64 b2) 64); [discriminate|lia]).
  lia.
Qed.

(** *** The signers mask is a selector over the positions below [N] *)

Lemma mask_bit_testbit (i m : Z) :
  0 <= i < 64 -> mask_bit i m = Z.testbit m i.
Proof.
  intros Hi. unfold mask_bit, wrap64.
  rewrite Z.shiftl_1_l.
  rewrite Z.mod_small by (split; [apply Z.pow_nonneg; lia|apply Z.pow_lt_mono_r; lia]).
  destruct (Z.testbit m i) eqn:Eb.
  - apply negb_true_iff. apply Z.eqb_neq. intros E0.
    assert (Hb : Z.testbit (Z.land (2 ^ i) m) i = true)
      by (rewrite Z.land_spec, Z.pow2_bits_true, Eb by lia; reflexivity).
    rewrite E0, Z.bits_0 in Hb. discriminate.
  - apply negb_false_iff. apply Z.eqb_eq.
    apply Z.bits_inj'. intros n Hn.
    rewrite Z.land_spec, Z.bits_0, Z.pow2_bits_eqb by lia.
    destruct (Z.eqb_spec i n) as [->|]; [rewrite Eb|]; reflexivity.
Qed.

Lemma mask_bit_high (i m : Z) : 64 <= i -> mask_bit i m = false.
Proof.
  intros Hi. unfold mask_bit, wrap64. rewrite Z.shiftl_1_l.
  replace i with (64 + (i - 64)) by lia.
  rewrite Z.pow_add_r, Z.mul_comm, Z.mod_mul by lia.
  reflexivity.
Qed.

Lemma mask_bit_truncate (i n m : Z) :
  0 <= i < n -> mask_bit i (Z.land m (Z.ones n)) = mask_bit i m.
Proof.
  intros Hi. destruct (Z_lt_le_dec i 64) as [Hlt|Hge].
  - rewrite !mask_bit_testbit by lia.
    rewrite Z.land_spec, Z.ones_spec_low by lia. apply andb_true_r.
  - rewrite !mask_bit_high by lia. reflexivity.
Qed.

Lemma select_signers_truncate (n m : Z) (pks : list PublicKey) :
  forall i acc nn,
    0 <= i -> i + Z.of_nat (length pks) <= n ->
    select_signers i pks (Z.land m (Z.ones n)) acc nn
    = select_signers i pks m acc nn.
Proof.
  induction pks as [|pk pks IH]; intros i acc nn Hi Hn; [reflexivity|].
  cbn [select_signers]. cbn [length] in Hn.
  rewrite mask_bit_truncate by lia.
  destruct (mask_bit i m); apply IH; lia.
Qed.

(** Verification reads the mask only below the number of keys. *)
Lemma VerifySignature_truncate (keyset : DataAvailabilityKeyset)
    (signersMask : Z) (data : bytes) (sig : Signature) :
  VerifySignature keyset
    (Z.land signersMask (Z.ones (Z.of_nat (length (PubKeys keyset))))) data sig
  = VerifySignature keyset signersMask data sig.
Proof.
  unfold VerifySignature.
  rewrite select_signers_truncate by lia. reflexivity.
Qed.


Lemma select_signers_count (m : Z) (pks : list PublicKey) :
  forall i acc nn,
    0 <= i -> i + Z.of_nat (length pks) <= 64 -> 0 <= nn ->
    nn + Z.of_nat (length pks) < 2 ^ 64 ->
    snd (select_signers i pks m acc nn)
    = nn + non_signers i (length pks) m.
Proof.
  induction pks as [|pk pks IH]; intros i acc nn Hi Hn Hnn Hlt.
  - cbn. lia.
  - cbn [select_signers non_signers length] in *.
    rewrite mask_bit_testbit by lia.
    destruct (Z.testbit m i).
    + rewrite IH by lia. lia.
    + unfold wrap64. rewrite Z.mod_small by lia.
      rewrite IH by lia. lia.
Qed.

(** A certificate that verifies has fewer non-signers, among the
    positions of the keyset, than the keyset assumes honest. *)
Lemma VerifySignature_enough_signers (keyset : DataAvailabilityKeyset)
    (signersMask : Z) (data : bytes) (sig : Signature) :
  (length (PubKeys keyset) <= 64)%nat ->
  VerifySignature keyset signersMask data sig = None ->
  non_signers 0 (length (PubKeys keyset)) signersMask < AssumedHonest keyset.
Proof.
  intros Hlen. unfold VerifySignature.
  pose proof (select_signers_count signersMask (PubKeys keyset) 0 [] 0) as Hc.
  destruct (select_signers 0 (PubKeys keyset) signersMask [] 0) as [pubkeys nn].
  cbn [snd] in Hc.
  rewrite Hc by (change (2 ^ 64) with 18446744073709551616; lia).
  destruct (_ >=? AssumedHonest keyset) eqn:E; [discriminate|].
  intros _. destruct (Z.geb_spec (0 + non_signers 0 (length (PubKeys keyset)) signersMask)
                        (AssumedHonest keyset)); [discriminate|lia].
Qed.

End KeysetProperties.

Lemma DeserializeKeyset_too_many_keys_witness :
  DeserializeKeyset (bls := demo_bls) (PutUint64 1 ++ PutUint64 65) false
  = Err (errors_New "too many keys in serialized DataAvailabilityKeyset").
Proof.
  apply (@DeserializeKeyset_too_many_keys demo_bls
           (PutUint64 1 ++ PutUint64 65) false).
  - vm_compute. lia.
  - vm_compute. reflexivity.
Defined.

(* ------------------------------------------------------------------ *)
(** ** Batch recovery *)

Section RecoveryProperties.
Context `{bls : BlsSignatures} `{flags : HeaderFlags} `{hashing : Hashing}.
Context {W : Type} `{reader : DASReader W} `{fetcher : DASKeysetFetcher W}.
Variable PreimagesMap : Type.

Local Abbreviation Recover := (RecoverPayloadFromDasBatch PreimagesMap).

(** The closure always returns: it has no slice and no index. *)
Lemma getByHash_returns (version : byte) (hash : bytes) (st : state W) :
  exists r st', getByHash version hash st = Return (r, st').
Proof.
  unfold getByHash, bind, call, emit, ret.
  repeat (destruct_match_goal; try discriminate); eauto.
Qed.

(** What an accepted batch went through. *)
Lemma Recover_accepted_inv batchNum sequencerMsg preimages validateSeqMsg
    (st st' : state W) payload pm err :
  Recover batchNum sequencerMsg preimages validateSeqMsg st
  = Return ((Some payload, pm, err), st') ->
  exists cert keysetPreimage w1 keyset,
    (40 <= length sequencerMsg)%nat
    /\ DeserializeDASCertFrom (skipn 40 sequencerMsg) = Ok cert
    /\ byte_to_Z (Version cert) < 2
    /\ GetKeysetByHash (KeysetHash cert) (ext st) = (Ok keysetPreimage, w1)
    /\ DeserializeKeyset keysetPreimage (negb validateSeqMsg) = Ok keyset
    /\ VerifySignature keyset (SignersMask cert)
         (SerializeSignableFields cert) (Sig cert) = None
    /\ (Timeout cert
        <? wrap64 (Uint64 (firstn 8 (skipn 8 sequencerMsg))
                   + MinLifetimeSecondsForDataAvailabilityCert)) = false
    /\ pm = preimages /\ err = None.
Proof.
  unfold RecoverPayloadFromDasBatch, soft_skip.
  unfold bind at 1. unfold slice_from.
  destruct (length sequencerMsg <? 40)%nat eqn:Elen; [discriminate|].
  apply Nat.ltb_ge in Elen. unfold ret at 1.
  destruct (DeserializeDASCertFrom (skipn 40 sequencerMsg)) as [cert|] eqn:Ecert;
    [|unfold bind, emit, ret; intros H; discriminate].
  destruct (byte_to_Z (Version cert) >=? 2) eqn:Ever;
    [unfold bind, emit, ret; intros H; discriminate|].
  unfold bind at 1. unfold call at 1.
  destruct (GetKeysetByHash (KeysetHash cert) (ext st)) as [[kp|e] w1] eqn:Eks;
    [|unfold bind, emit, ret; intros H; discriminate].
  unfold bind at 1.
  match goal with
  | |- context [(if ?c then emit ?e else ret tt) ?s] =>
      assert (Hrec : exists s1, (if c then emit e else ret tt) s = Return (tt, s1))
        by (destruct c; unfold emit, ret; eauto);
      destruct Hrec as [s1 Hrec]; rewrite Hrec
  end.
  destruct (DeserializeKeyset kp (negb validateSeqMsg)) as [keyset|] eqn:Ekd;
    [|unfold ret; intros H; discriminate].
  destruct (VerifySignature keyset (SignersMask cert)
              (SerializeSignableFields cert) (Sig cert)) eqn:Evs;
    [unfold bind, emit, ret; intros H; discriminate|].
  unfold bind at 1. unfold slice.
  destruct (length sequencerMsg <? 16)%nat eqn:E16;
    [apply Nat.ltb_lt in E16; lia|].
  unfold ret at 1. change (16 - 8)%nat with 8%nat.
  destruct (Timeout cert <? _) eqn:Etime;
    [unfold bind, emit, ret; intros H; discriminate|].
  unfold bind at 1.
  destruct (getByHash (Version cert) (DataHash cert) s1) as [|[[p|e] s2]];
    [discriminate| |unfold bind, emit, ret; intros H; discriminate].
  unfold bind at 1.
  match goal with
  | |- context [(if ?c then ?a else ret tt) ?s] =>
      assert (Hrec2 : exists s3, (if c then a else ret tt) s = Return (tt, s3))
        by (destruct c; [destruct (byte_to_Z (Version cert) =? 0)|];
            unfold bind, emit, ret; eauto);
      destruct Hrec2 as [s3 Hrec2]; rewrite Hrec2
  end.
  unfold ret. intros H. inversion H; subst.
  exists cert, kp, w1, keyset.
  destruct (Z.geb_spec (byte_to_Z (Version cert)) 2); [discriminate|].
  repeat split; try assumption; try reflexivity.
Qed.

(** C1, as the code has it. An accepted certificate may have bits of
    its signers mask at or beyond the number [N] of keys: verification
    reads the mask below [N] only. What holds of an accepted
    certificate is that it also verifies with the mask cut to [N] bits,
    and that fewer than [assumed_honest] of the [N] positions are
    clear. *)
Theorem Recover_accepted_mask_below_N batchNum sequencerMsg preimages
    validateSeqMsg (st st' : state W) payload pm err :
  Recover batchNum sequencerMsg preimages validateSeqMsg st
  = Return ((Some payload, pm, err), st') ->
  exists cert keysetPreimage w1 keyset,
    DeserializeDASCertFrom (skipn 40 sequencerMsg) = Ok cert
    /\ GetKeysetByHash (KeysetHash cert) (ext st) = (Ok keysetPreimage, w1)
    /\ DeserializeKeyset keysetPreimage (negb validateSeqMsg) = Ok keyset
    /\ (length (PubKeys keyset) <= 64)%nat
    /\ VerifySignature keyset
         (Z.land (SignersMask cert)
                 (Z.ones (Z.of_nat (length (PubKeys keyset)))))
         (SerializeSignableFields cert) (Sig cert) = None
    /\ non_signers 0 (length (PubKeys keyset)) (SignersMask cert)
       < AssumedHonest keyset.
Proof.
  intros H. apply Recover_accepted_inv in H.
  destruct H as (cert & kp & w1 & keyset & _ & Hc & _ & Hk & Hd & Hv & _).
  exists cert, kp, w1, keyset.
  pose proof (DeserializeKeyset_at_most_64 _ _ _ Hd) as H64.
  repeat split; try assumption.
  - rewrite VerifySignature_truncate. exact Hv.
  - eapply VerifySignature_enough_signers; eassumption.
Qed.

Lemma reader_calls_app (t1 t2 : list event) :
  reader_calls (t1 ++ t2) = reader_calls t1 ++ reader_calls t2.
Proof. unfold reader_calls. apply flat_map_app. Qed.

(** C5. The payload fetch of recovery. For version 0 the reader is asked
    first under [flat_to_tree(hash)]; when that call returns an error,
    whichever it is, the reader is asked once more, under [hash] itself,
    and not again; when it succeeds there is no second call. For any
    other version the reader is asked once, under [hash]. The bridge is
    taken not to map the hash to itself. *)
Theorem getByHash_lookups (version : byte) (hash : bytes) (st : state W) :
  (byte_to_Z version = 0 -> FlatHashToTreeHash hash <> hash) ->
  exists r st',
    getByHash version hash st = Return (r, st')
    /\ reader_calls (trace st')
       = reader_calls (trace st)
         ++ (if byte_to_Z version =? 0 then
               if is_err (fst (GetByHash (FlatHashToTreeHash hash) (ext st)))
               then [FlatHashToTreeHash hash; hash]
               else [FlatHashToTreeHash hash]
             else [hash]).
Proof.
  intros Hbridge. unfold getByHash.
  destruct (byte_to_Z version =? 0) eqn:Ev.
  - apply Z.eqb_eq in Ev. specialize (Hbridge Ev).
    assert (Hneq : bytes_eqb hash (FlatHashToTreeHash hash) = false)
      by (apply bytes_eqb_neq; congruence).
    rewrite Hneq. cbn [negb].
    unfold bind at 1. unfold call at 1.
    destruct (GetByHash (FlatHashToTreeHash hash) (ext st)) as [[p|e] w1];
      cbn [is_err fst andb].
    + unfold bind, ret, emit.
      destruct_match_goal; eexists; eexists; (split; [reflexivity|]);
        cbn [trace]; rewrite ?reader_calls_app; cbn; rewrite ?app_nil_r;
        reflexivity.
    + unfold bind at 1 2. unfold emit at 1. unfold call at 1. cbn [ext trace].
      destruct (GetByHash hash w1) as [[p|e'] w2]; unfold bind, ret, emit.
      * destruct_match_goal; eexists; eexists; (split; [reflexivity|]);
          cbn [trace]; rewrite ?reader_calls_app; cbn; rewrite ?app_nil_r;
          rewrite <- ?app_assoc; reflexivity.
      * eexists; eexists; (split; [reflexivity|]);
          cbn [trace]; rewrite ?reader_calls_app; cbn; rewrite ?app_nil_r;
          rewrite <- ?app_assoc; reflexivity.
  - rewrite bytes_eqb_refl. cbn [negb].
    unfold bind at 1. unfold call at 1.
    destruct (GetByHash hash (ext st)) as [[p|e] w1]; cbn [is_err andb];
      unfold bind, ret, emit.
    + destruct_match_goal; eexists; eexists; (split; [reflexivity|]);
        cbn [trace]; rewrite ?reader_calls_app; cbn; rewrite ?app_nil_r;
        reflexivity.
    + eexists; eexists; (split; [reflexivity|]);
        cbn [trace]; rewrite ?reader_calls_app; cbn; rewrite ?app_nil_r;
        reflexivity.
Qed.

(** Recovery returns on every message of at least 40 bytes. *)
Lemma Recover_returns batchNum sequencerMsg preimages validateSeqMsg
    (st : state W) :
  (40 <= length sequencerMsg)%nat ->
  exists r st',
    Recover batchNum sequencerMsg preimages validateSeqMsg st = Return (r, st').
Proof.
  intros Hlen. unfold RecoverPayloadFromDasBatch, slice_from, slice.
  assert (E40 : (length sequencerMsg <? 40)%nat = false) by (apply Nat.ltb_ge; lia).
  assert (E16 : (length sequencerMsg <? 16)%nat = false) by (apply Nat.ltb_ge; lia).
  rewrite E40, E16.
  unfold bind, call, emit, ret.
  repeat (destruct_match_goal; try discriminate;
          try match goal with
              | E : getByHash ?v ?h ?s = Panic |- _ =>
                  destruct (getByHash_returns v h s) as (? & ? & Hr);
                  rewrite Hr in E; discriminate
              end);
    eauto.
Qed.

(** C10. Recovery panics exactly on the sequencer messages shorter than
    40 bytes: [sequencerMsg[40:]] is taken before anything is checked, and
    on 40 bytes or more neither that slice nor [sequencerMsg[8:16]] is out
    of range. *)
Theorem Recover_panics_iff_short batchNum sequencerMsg preimages
    validateSeqMsg (st : state W) :
  Recover batchNum sequencerMsg preimages validateSeqMsg st = Panic
  <-> (length sequencerMsg < 40)%nat.
Proof.
  split.
  - intros Hp. destruct (Nat.lt_ge_cases (length sequencerMsg) 40) as [|Hge];
      [assumption|].
    destruct (Recover_returns batchNum sequencerMsg preimages validateSeqMsg
                st Hge) as (r & st' & Hr).
    rewrite Hr in Hp. discriminate.
  - intros Hlt. unfold RecoverPayloadFromDasBatch, bind, slice_from.
    apply Nat.ltb_lt in Hlt. rewrite Hlt. reflexivity.
Qed.

(** A certificate whose timeout is below the wrapped sum never yields a
    payload. *)
Lemma Recover_expires_too_soon batchNum sequencerMsg preimages validateSeqMsg
    (st : state W) cert :
  (40 <= length sequencerMsg)%nat ->
  DeserializeDASCertFrom (skipn 40 sequencerMsg) = Ok cert ->
  (Timeout cert
   <? wrap64 (Uint64 (firstn 8 (skipn 8 sequencerMsg))
              + MinLifetimeSecondsForDataAvailabilityCert)) = true ->
  exists r st',
    Recover batchNum sequencerMsg preimages validateSeqMsg st = Return (r, st')
    /\ (r = soft_skip PreimagesMap
        \/ (exists e w1,
               GetKeysetByHash (KeysetHash cert) (ext st) = (Err e, w1)
               /\ r = (None, None, Some e))
        \/ (exists keysetPreimage w1 cause,
               GetKeysetByHash (KeysetHash cert) (ext st) = (Ok keysetPreimage, w1)
               /\ DeserializeKeyset keysetPreimage (negb validateSeqMsg) = Err cause
               /\ r = (None, None,
                       Some (ErrSeqMsgValidation_keyset cause (KeysetHash cert)
                               batchNum)))).
Proof.
  intros Hlen Hcert Htime.
  unfold RecoverPayloadFromDasBatch, slice_from, slice.
  assert (E40 : (length sequencerMsg <? 40)%nat = false) by (apply Nat.ltb_ge; lia).
  assert (E16 : (length sequencerMsg <? 16)%nat = false) by (apply Nat.ltb_ge; lia).
  rewrite E40, E16. unfold bind at 1. unfold ret at 1. rewrite Hcert.
  change (16 - 8)%nat with 8%nat.
  destruct (byte_to_Z (Version cert) >=? 2);
    [unfold bind, emit, ret; eexists; eexists; split; [reflexivity|left; reflexivity]|].
  unfold bind at 1. unfold call at 1.
  destruct (GetKeysetByHash (KeysetHash cert) (ext st)) as [[kp|e] w1].
  - unfold bind at 1.
    match goal with
    | |- context [(if ?c then emit ?e else ret tt) ?s] =>
        assert (Hrec : exists s1, (if c then emit e else ret tt) s = Return (tt, s1))
          by (destruct c; unfold emit, ret; eauto);
        destruct Hrec as [s1 Hrec]; rewrite Hrec
    end.
    destruct (DeserializeKeyset kp (negb validateSeqMsg)) as [keyset|cause] eqn:Ekd.
    + destruct (VerifySignature _ _ _ _).
      * unfold bind, emit, ret. eexists; eexists; split; [reflexivity|left; reflexivity].
      * unfold bind at 1. unfold ret at 1. rewrite Htime.
        unfold bind, emit, ret. eexists; eexists; split; [reflexivity|left; reflexivity].
    + unfold ret. eexists; eexists; split; [reflexivity|].
      right; right. exists kp, w1, cause. repeat split; try reflexivity.
      exact Ekd.
  - unfold bind, emit, ret. eexists; eexists; split; [reflexivity|].
    right; left. exists e, w1. split; reflexivity.
Qed.

(** C4, as the code has it. Let [maxTimestamp] be the big-endian [u64]
    at bytes 8..16 of the sequencer message and suppose that
    [maxTimestamp + 604800] fits a [uint64]. Then every accepted
    certificate has [timeout >= maxTimestamp + 604800]; and a message of
    at least 40 bytes whose certificate parses with a smaller timeout
    yields no payload: recovery soft-skips, unless fetching or
    deserializing the keyset failed before, in which case that error is
    returned. *)
Theorem Recover_timeout_check batchNum sequencerMsg preimages validateSeqMsg
    (st : state W) :
  Uint64 (firstn 8 (skipn 8 sequencerMsg)) + 604800 < 2 ^ 64 ->
  (forall payload pm err st',
      Recover batchNum sequencerMsg preimages validateSeqMsg st
      = Return ((Some payload, pm, err), st') ->
      exists cert,
        DeserializeDASCertFrom (skipn 40 sequencerMsg) = Ok cert
        /\ Timeout cert >= Uint64 (firstn 8 (skipn 8 sequencerMsg)) + 604800)
  /\ (forall cert,
        (40 <= length sequencerMsg)%nat ->
        DeserializeDASCertFrom (skipn 40 sequencerMsg) = Ok cert ->
        Timeout cert < Uint64 (firstn 8 (skipn 8 sequencerMsg)) + 604800 ->
        exists r st',
          Recover batchNum sequencerMsg preimages validateSeqMsg st
          = Return (r, st')
          /\ (r = soft_skip PreimagesMap
              \/ (exists e w1,
                     GetKeysetByHash (KeysetHash cert) (ext st) = (Err e, w1)
                     /\ r = (None, None, Some e))
              \/ (exists keysetPreimage w1 cause,
                     GetKeysetByHash (KeysetHash cert) (ext st)
                     = (Ok keysetPreimage, w1)
                     /\ DeserializeKeyset keysetPreimage (negb validateSeqMsg)
                        = Err cause
                     /\ r = (None, None,
                             Some (ErrSeqMsgValidation_keyset cause
                                     (KeysetHash cert) batchNum))))).
Proof.
  intros Hfit.
  pose proof (Uint64_range (firstn 8 (skipn 8 sequencerMsg))) as Hts.
  unfold is_uint64 in Hts.
  assert (Hwrap : wrap64 (Uint64 (firstn 8 (skipn 8 sequencerMsg))
                          + MinLifetimeSecondsForDataAvailabilityCert)
                  = Uint64 (firstn 8 (skipn 8 sequencerMsg)) + 604800).
  { unfold wrap64. change MinLifetimeSecondsForDataAvailabilityCert with 604800.
    apply Z.mod_small. lia. }
  split.
  - intros payload pm err st' H. apply Recover_accepted_inv in H.
    destruct H as (cert & kp & w1 & keyset & _ & Hc & _ & _ & _ & _ & Ht & _).
    exists cert. split; [exact Hc|].
    rewrite Hwrap in Ht. apply Z.ltb_ge in Ht. lia.
  - intros cert Hlen Hc Hlt.
    apply Recover_expires_too_soon; try assumption.
    rewrite Hwrap. apply Z.ltb_lt. exact Hlt.
Qed.

End RecoveryProperties.

(** C1, the claim as stated fails: a certificate with bit 1 of its mask
    set is accepted against a keyset of one key. *)
Lemma Recover_accepts_mask_bit_beyond_N :
  exists st' keyset,
    RecoverPayloadFromDasBatch unit 7 msg_mask_beyond None true
      (init_state demo_store)
    = Return ((Some demo_payload, None, None), st')
    /\ DeserializeDASCertFrom (skipn 40 msg_mask_beyond)
       = Ok (demo_cert 604800 3)
    /\ GetKeysetByHash (KeysetHash (demo_cert 604800 3)) demo_store
       = (Ok demo_keyset_bytes, demo_store)
    /\ DeserializeKeyset demo_keyset_bytes false = Ok keyset
    /\ length (PubKeys keyset) = 1%nat
    /\ Z.land (SignersMask (demo_cert 604800 3)) (Z.lnot (Z.shiftl 1 1 - 1)) <> 0
    /\ has_bit_beyond 1 (SignersMask (demo_cert 604800 3)).
Proof.
  eexists. eexists.
  split; [vm_compute; reflexivity|].
  split; [vm_compute; reflexivity|].
  split; [vm_compute; reflexivity|].
  split; [vm_compute; reflexivity|].
  split; [reflexivity|].
  split; [vm_compute; discriminate|].
  exists 1. split; [lia|reflexivity].
Qed.

Lemma Recover_accepted_mask_below_N_witness :
  exists cert keysetPreimage w1 keyset,
    DeserializeDASCertFrom (skipn 40 msg_mask_beyond) = Ok cert
    /\ GetKeysetByHash (KeysetHash cert) demo_store = (Ok keysetPreimage, w1)
    /\ DeserializeKeyset keysetPreimage (negb true) = Ok keyset
    /\ (length (PubKeys keyset) <= 64)%nat
    /\ VerifySignature keyset
         (Z.land (SignersMask cert)
                 (Z.ones (Z.of_nat (length (PubKeys keyset)))))
         (SerializeSignableFields cert) (Sig cert) = None
    /\ non_signers 0 (length (PubKeys keyset)) (SignersMask cert)
       < AssumedHonest keyset.
Proof.
  eapply (@Recover_accepted_mask_below_N demo_bls demo_flags demo_hashing
            store demo_reader demo_fetcher unit 7 msg_mask_beyond None true
            (init_state demo_store)).
  vm_compute. reflexivity.
Defined.

(** C4, the claim as stated fails, in two ways. With the largest
    [uint64] as maximal timestamp the sum wraps around, and a certificate
    whose timeout is far below [max_timestamp + 604800] is accepted. And
    a certificate that expires too soon does not make recovery soft-skip
    when the keyset cannot be fetched: the error of the fetch is
    returned. *)
Lemma Recover_timeout_claim_fails :
  (exists st',
      RecoverPayloadFromDasBatch unit 7 msg_overflow None true
        (init_state demo_store)
      = Return ((Some demo_payload, None, None), st')
      /\ DeserializeDASCertFrom (skipn 40 msg_overflow)
         = Ok (demo_cert 604799 1)
      /\ Uint64 (firstn 8 (skipn 8 msg_overflow)) = 2 ^ 64 - 1
      /\ Timeout (demo_cert 604799 1)
         < Uint64 (firstn 8 (skipn 8 msg_overflow)) + 604800)
  /\ (exists st',
         RecoverPayloadFromDasBatch unit 7 msg_too_soon None true
           (init_state (W := store) [])
         = Return ((None, None, Some (ErrExternal 404)), st')
         /\ DeserializeDASCertFrom (skipn 40 msg_too_soon)
            = Ok (demo_cert 1 1)
         /\ Timeout (demo_cert 1 1)
            < Uint64 (firstn 8 (skipn 8 msg_too_soon)) + 604800).
Proof.
  split; eexists.
  - split; [vm_compute; reflexivity|].
    split; [vm_compute; reflexivity|].
    split; vm_compute; reflexivity.
  - split; [vm_compute; reflexivity|].
    split; vm_compute; reflexivity.
Qed.

Lemma Recover_timeout_check_witness :
  exists cert,
    DeserializeDASCertFrom (skipn 40 msg_accepted) = Ok cert
    /\ Timeout cert >= Uint64 (firstn 8 (skipn 8 msg_accepted)) + 604800.
Proof.
  assert (Hfit : Uint64 (firstn 8 (skipn 8 msg_accepted)) + 604800 < 2 ^ 64)
    by (vm_compute; reflexivity).
  destruct (@Recover_timeout_check demo_bls demo_flags demo_hashing
              store demo_reader demo_fetcher unit 7 msg_accepted None true
              (init_state demo_store) Hfit) as [Haccepted _].
  eapply Haccepted. vm_compute. reflexivity.
Defined.

Lemma getByHash_lookups_witness :
  exists r st',
    getByHash x00 demo_flat_hash (init_state legacy_store) = Return (r, st')
    /\ reader_calls (trace st')
       = reader_calls (trace (init_state legacy_store))
         ++ (if byte_to_Z x00 =? 0 then
               if is_err (fst (GetByHash (FlatHashToTreeHash demo_flat_hash)
                                 (ext (init_state legacy_store))))
               then [FlatHashToTreeHash demo_flat_hash; demo_flat_hash]
               else [FlatHashToTreeHash demo_flat_hash]
             else [demo_flat_hash]).
Proof.
  apply (@getByHash_lookups demo_hashing store demo_reader x00 demo_flat_hash
           (init_state legacy_store)).
  intros _. vm_compute. discriminate.
Defined.

(* ------------------------------------------------------------------ *)
(** ** The signed Redis cache *)

Section RedisProperties.
Context `{deps : CacheDeps} `{hashing : Hashing}.
Context {W : Type} `{base : StorageService W} `{client : RedisClient W}.

(** The constructor succeeds exactly when a client can be made from the
    URL and the key string does not decode to the zero hash. *)
Lemma NewRedisStorageService_ok_iff (cfg : RedisConfig) :
  is_err (NewRedisStorageService cfg) = false
  <-> RedisClientFromURL (Url cfg) = None
      /\ HexToHash (KeyConfig cfg) <> zero_hash.
Proof.
  unfold NewRedisStorageService.
  destruct (RedisClientFromURL (Url cfg)) as [e|].
  - cbn. split; [discriminate|intros [H _]; discriminate].
  - destruct (bytes_eqb (HexToHash (KeyConfig cfg)) zero_hash) eqn:E; cbn.
    + apply bytes_eqb_eq in E. split; [discriminate|intros [_ H]; contradiction].
    + apply bytes_eqb_neq in E. split; [intros _; split; [reflexivity|exact E]
                                       |reflexivity].
Qed.

(** C2, as the code has it. When the base store accepts the value, [Put]
    returns what the Redis [SET] of the signed entry returned: [nil] when
    it succeeded, and its error, logged first, when it failed. *)
Theorem Put_returns_redis_result (rs : RedisStorageService) (value : bytes)
    (timeout : Z) (st : state W) (w1 : W) :
  base_Put value timeout (ext st) = (None, w1) ->
  exists st',
    RedisStorageService_Put rs value timeout st
    = Return (fst (client_Set (dastree_Hash value) (signMessage rs value)
                     (Expiration (redisConfig rs)) w1), st')
    /\ (forall err,
           fst (client_Set (dastree_Hash value) (signMessage rs value)
                  (Expiration (redisConfig rs)) w1) = Some err ->
           exists t,
             trace st' = t ++ [Log LvlError "das.RedisStorageService.Store"]).
Proof.
  intros Hbase. unfold RedisStorageService_Put.
  unfold bind at 1 2. unfold emit at 1. unfold call at 1. cbn [ext trace].
  rewrite Hbase. unfold bind at 1. unfold call at 1. cbn [ext trace].
  destruct (client_Set _ _ _ w1) as [[err|] w2]; cbn [fst].
  - unfold bind, emit, ret. cbn [ext trace].
    eexists. split; [reflexivity|]. intros err' _. cbn [trace].
    eexists. reflexivity.
  - unfold ret. eexists. split; [reflexivity|]. intros err' H. discriminate.
Qed.

(** C3, as the code has it. When the cache lookup fails, by a Redis
    error or by the HMAC check, and the base store has the value,
    [GetByHash] returns that value if the Redis [SET] that refreshes the
    cache succeeds, and the error of the [SET], without the value, if it
    fails. *)
Theorem GetByHash_returns_refresh_result (rs : RedisStorageService)
    (key : bytes) (st : state W) (r : result bytes) (w1 w2 : W) (ret_ : bytes) :
  client_Get key (ext st) = (r, w1) ->
  is_err (match r with
          | Err e => Err e
          | Ok data => verifyMessageSignature rs data
          end) = true ->
  base_GetByHash key w1 = (Ok ret_, w2) ->
  exists st',
    RedisStorageService_GetByHash rs key st
    = Return (match fst (client_Set key (signMessage rs ret_)
                           (Expiration (redisConfig rs)) w2) with
              | None => Ok ret_
              | Some err => Err err
              end, st').
Proof.
  intros Hget Hfail Hbase. unfold RedisStorageService_GetByHash, getVerifiedData.
  unfold bind at 1 2 3. unfold emit at 1. unfold call at 1. cbn [ext trace].
  rewrite Hget.
  destruct r as [data|e].
  - destruct (verifyMessageSignature rs data) as [m|e]; [discriminate|].
    unfold ret at 1. unfold bind at 1. unfold call at 1. cbn [ext trace].
    rewrite Hbase. unfold bind, call. cbn [ext trace].
    destruct (client_Set _ _ _ w2) as [[err|] w3]; cbn [fst]; unfold ret;
      eexists; reflexivity.
  - unfold bind at 1 2. unfold emit at 1. unfold ret at 1. cbn [ext trace].
    unfold bind at 1. unfold call at 1. cbn [ext trace].
    rewrite Hbase. unfold bind, call. cbn [ext trace].
    destruct (client_Set _ _ _ w2) as [[err|] w3]; cbn [fst]; unfold ret;
      eexists; reflexivity.
Qed.

End RedisProperties.

(** C2, the claim as stated fails: the base store accepts the value, the
    Redis [SET] fails, and [Put] returns the error of the [SET]. *)
Lemma Put_fails_when_redis_is_down :
  fst (base_Put [x01] 5 []) = None
  /\ fst (client_Set (dastree_Hash [x01]) (signMessage demo_rs [x01])
            (Expiration (redisConfig demo_rs)) (snd (base_Put [x01] 5 [])))
     = Some (ErrExternal 111)
  /\ exists st',
       RedisStorageService_Put demo_rs [x01] 5 (init_state [])
       = Return (Some (ErrExternal 111), st').
Proof.
  split; [reflexivity|]. split; [reflexivity|].
  eexists. vm_compute. reflexivity.
Qed.

Lemma Put_returns_redis_result_witness :
  exists st',
    RedisStorageService_Put demo_rs [x01] 5 (init_state [])
    = Return (fst (client_Set (dastree_Hash [x01]) (signMessage demo_rs [x01])
                     (Expiration (redisConfig demo_rs))
                     (snd (base_Put [x01] 5 []))), st')
    /\ (forall err,
           fst (client_Set (dastree_Hash [x01]) (signMessage demo_rs [x01])
                  (Expiration (redisConfig demo_rs))
                  (snd (base_Put [x01] 5 []))) = Some err ->
           exists t,
             trace st' = t ++ [Log LvlError "das.RedisStorageService.Store"]).
Proof.
  apply (@Put_returns_redis_result demo_deps demo_hashing store demo_base
           redis_down demo_rs [x01] 5 (init_state [])
           (snd (base_Put [x01] 5 []))).
  reflexivity.
Defined.

(** C3, the claim as stated fails: the cache lookup misses, the base
    store has the value, the refreshing [SET] fails, and [GetByHash]
    returns the error instead of the value. *)
Lemma GetByHash_fails_when_refresh_fails :
  is_err (fst (client_Get demo_keyset_hash demo_store)) = true
  /\ fst (base_GetByHash demo_keyset_hash demo_store) = Ok demo_keyset_bytes
  /\ exists st',
       RedisStorageService_GetByHash demo_rs demo_keyset_hash
         (init_state demo_store)
       = Return (Err (ErrExternal 111), st').
Proof.
  split; [reflexivity|]. split; [vm_compute; reflexivity|].
  eexists. vm_compute. reflexivity.
Qed.

Lemma GetByHash_returns_refresh_result_witness :
  exists st',
    RedisStorageService_GetByHash demo_rs demo_keyset_hash
      (init_state demo_store)
    = Return (match fst (client_Set demo_keyset_hash
                           (signMessage demo_rs demo_keyset_bytes)
                           (Expiration (redisConfig demo_rs)) demo_store) with
              | None => Ok demo_keyset_bytes
              | Some err => Err err
              end, st').
Proof.
  apply (@GetByHash_returns_refresh_result demo_deps store demo_base
           redis_down demo_rs demo_keyset_hash (init_state demo_store)
           (Err (ErrExternal 111)) demo_store demo_store demo_keyset_bytes).
  - reflexivity.
  - reflexivity.
  - vm_compute. reflexivity.
Defined.

(** C8, the code at the failing inputs. A key string of one byte of hex
    is accepted, and padded on the left to 32 bytes; the key string of 32
    zero bytes of hex is rejected. *)
Theorem NewRedisStorageService_key_check :
  NewRedisStorageService (redisConfig demo_rs)
  = Ok {| redisConfig := redisConfig demo_rs;
          signingKey := repeat x00 31 ++ [x01] |}
  /\ String.length (KeyConfig zero_key_config) = 64%nat
  /\ NewRedisStorageService zero_key_config
     = Err (errors_New "signing key file contents are not 32 bytes of hex").
Proof.
  split; [vm_compute; reflexivity|].
  split; vm_compute; reflexivity.
Qed.

(* ================================================================== *)
(** * Further properties of the code *)

(* ------------------------------------------------------------------ *)
(** ** Expiration policies *)

(** X1. The two conversions of expiration policies are inverse to each
    other: a policy prints to a name without error exactly when that name
    parses to the policy without error. *)
Theorem ExpirationPolicy_String_roundtrip (ep : ExpirationPolicy) (s : string) :
  ExpirationPolicy_String ep = (s, None)
  <-> StringToExpirationPolicy s = (ep, None).
Proof.
  split.
  - unfold ExpirationPolicy_String.
    repeat (match goal with
            | |- context [?a =? ?b] => destruct (Z.eqb_spec a b) as [->|]
            end;
            [intros H; inversion H; reflexivity|]).
    discriminate.
  - unfold StringToExpirationPolicy.
    repeat (match goal with
            | |- context [String.eqb ?a ?b] =>
                destruct (String.eqb_spec a b) as [->|]
            end;
            [intros H; inversion H; reflexivity|]).
    discriminate.
Qed.

(** X2. Printing a policy fails exactly on the values outside the five
    constants, and the value that parsing returns beside its error, -1,
    is one of them: the result of parsing prints without error exactly
    when parsing had no error. *)
Theorem ExpirationPolicy_errors (ep : ExpirationPolicy) (s : string) :
  (snd (ExpirationPolicy_String ep) = None <-> 0 <= ep <= 4)
  /\ (snd (ExpirationPolicy_String (fst (StringToExpirationPolicy s))) = None
      <-> snd (StringToExpirationPolicy s) = None).
Proof.
  split.
  - unfold ExpirationPolicy_String, KeepForever, DiscardAfterArchiveTimeout,
      DiscardAfterDataTimeout, MixedTimeout, DiscardImmediately.
    repeat (match goal with
            | |- context [?a =? ?b] => destruct (Z.eqb_spec a b) as [->|]
            end;
            [cbn; split; [lia|reflexivity]|]).
    cbn. split; [discriminate|lia].
  - unfold StringToExpirationPolicy.
    repeat (match goal with
            | |- context [String.eqb ?a ?b] =>
                destruct (String.eqb_spec a b) as [->|]
            end;
            [cbn; split; reflexivity|]).
    cbn. split; discriminate.
Qed.

(* ------------------------------------------------------------------ *)
(** ** Parsing certificates *)

Lemma ReadFull_inv (n : nat) (rd a rest : bytes) :
  ReadFull n rd = Ok (a, rest) -> rd = a ++ rest /\ length a = n.
Proof.
  unfold ReadFull. destruct n as [|n'].
  - intros H. inversion H. split; reflexivity.
  - destruct rd as [|x rd']; [discriminate|].
    destruct (length (x :: rd') <? S n')%nat eqn:E; [discriminate|].
    intros H. apply Nat.ltb_ge in E.
    assert (Ha : a = firstn (S n') (x :: rd')) by congruence.
    assert (Hr : rest = skipn (S n') (x :: rd')) by congruence.
    subst a rest. split.
    + symmetry. apply firstn_skipn.
    + rewrite length_firstn. apply Nat.min_l. exact E.
Qed.

Lemma Z_to_byte_low (q : Z) (b : byte) : Z_to_byte (q * 256 + byte_to_Z b) = b.
Proof.
  pose proof (byte_to_Z_range b) as Hb.
  assert (H : (q * 256 + byte_to_Z b) mod 256 = byte_to_Z b)
    by (rewrite Z.add_comm, Z.mod_add, Z.mod_small; lia).
  unfold Z_to_byte. rewrite H. unfold byte_to_Z.
  rewrite N2Z.id, Byte.of_to_N. reflexivity.
Qed.

Lemma div_256_low (q : Z) (b : byte) : (q * 256 + byte_to_Z b) / 256 = q.
Proof.
  pose proof (byte_to_Z_range b) as Hb.
  rewrite Z.add_comm, Z.div_add by lia. rewrite Z.div_small by lia. lia.
Qed.

(** Encoding is the inverse of decoding on eight bytes. *)
Lemma PutUint64_Uint64 (bs : bytes) :
  length bs = 8%nat -> PutUint64 (Uint64 bs) = bs.
Proof.
  intros Hlen.
  destruct bs as [|b0 [|b1 [|b2 [|b3 [|b4 [|b5 [|b6 [|b7 [|]]]]]]]]];
    try discriminate.
  rewrite Uint64_be_value. unfold be_value, PutUint64. cbn [fold_left].
  change 56 with (8 + (8 + (8 + (8 + (8 + (8 + 8)))))).
  change 48 with (8 + (8 + (8 + (8 + (8 + 8))))).
  change 40 with (8 + (8 + (8 + (8 + 8)))).
  change 32 with (8 + (8 + (8 + 8))).
  change 24 with (8 + (8 + 8)).
  change 16 with (8 + 8).
  rewrite <- !Z.shiftr_shiftr by lia.
  rewrite !Z.shiftr_div_pow2 by lia. change (2 ^ 8) with 256.
  rewrite !div_256_low, !Z_to_byte_low. reflexivity.
Qed.

Section CertificateParsing.
Context `{bls : BlsSignatures} `{flags : HeaderFlags}.

(** X3. The wire format that [DeserializeDASCertFrom] accepts. Whenever
    the reader returns a certificate, the input is a header byte with the
    DAS flag, the two 32-byte hashes, the timeout as eight big-endian
    bytes, the version byte if the header has the tree flag (the version
    is 0 otherwise), the signers mask as eight big-endian bytes and 96
    bytes that the BLS library reads as the signature, followed by what
    the reader leaves over; the two numbers are within [uint64]. *)
Theorem DeserializeDASCertFrom_wire_format (rd rest : bytes)
    (c : DataAvailabilityCertificate) :
  DeserializeDASCertFrom_reader rd = Ok (c, rest) ->
  exists header sigBytes,
    rd = header :: KeysetHash c ++ DataHash c ++ PutUint64 (Timeout c)
           ++ (if IsTreeDASMessageHeaderByte header then [Version c] else [])
           ++ PutUint64 (SignersMask c) ++ sigBytes ++ rest
    /\ IsDASMessageHeaderByte header = true
    /\ length (KeysetHash c) = 32%nat
    /\ length (DataHash c) = 32%nat
    /\ is_uint64 (Timeout c) /\ is_uint64 (SignersMask c)
    /\ (if IsTreeDASMessageHeaderByte header then True else Version c = x00)
    /\ length sigBytes = 96%nat
    /\ SignatureFromBytes sigBytes = Ok (Sig c).
Proof.
  unfold DeserializeDASCertFrom_reader.
  unfold rbind at 1. unfold ReadByte.
  destruct rd as [|header rd0]; [discriminate|].
  destruct (IsDASMessageHeaderByte header) eqn:Ehdr; cbn [negb];
    [|discriminate].
  unfold rbind at 1.
  destruct (ReadFull 32 rd0) as [[kh rd1]|] eqn:E1; [|discriminate].
  unfold rbind at 1.
  destruct (ReadFull 32 rd1) as [[dh rd2]|] eqn:E2; [|discriminate].
  unfold rbind at 1.
  destruct (ReadFull 8 rd2) as [[tb rd3]|] eqn:E3; [|discriminate].
  apply ReadFull_inv in E1, E2, E3.
  destruct E1 as [-> Hkh], E2 as [-> Hdh], E3 as [-> Htb].
  unfold rbind at 1.
  destruct (IsTreeDASMessageHeaderByte header) eqn:Etree.
  - unfold rbind at 1.
    destruct (ReadFull 1 rd3) as [[vb rd4]|] eqn:E4; [|discriminate].
    unfold rret at 1. unfold rbind at 1.
    destruct (ReadFull 8 rd4) as [[mb rd5]|] eqn:E5; [|discriminate].
    unfold rbind at 1.
    destruct (ReadFull 96 rd5) as [[sb rd6]|] eqn:E6; [|discriminate].
    apply ReadFull_inv in E4, E5, E6.
    destruct E4 as [-> Hvb], E5 as [-> Hmb], E6 as [-> Hsb].
    destruct (SignatureFromBytes sb) as [sig|] eqn:Esig; [|discriminate].
    unfold rret. intros H. inversion H; subst.
    cbn [KeysetHash DataHash Timeout SignersMask Sig Version].
    exists header, sb. rewrite Etree.
    destruct vb as [|v [|]]; try discriminate. cbn [nth].
    rewrite !PutUint64_Uint64 by assumption.
    repeat split; try assumption; try apply Uint64_range.
    all: rewrite <- ?app_assoc; reflexivity.
  - unfold rret at 1. unfold rbind at 1.
    destruct (ReadFull 8 rd3) as [[mb rd5]|] eqn:E5; [|discriminate].
    unfold rbind at 1.
    destruct (ReadFull 96 rd5) as [[sb rd6]|] eqn:E6; [|discriminate].
    apply ReadFull_inv in E5, E6.
    destruct E5 as [-> Hmb], E6 as [-> Hsb].
    destruct (SignatureFromBytes sb) as [sig|] eqn:Esig; [|discriminate].
    unfold rret. intros H. inversion H; subst.
    cbn [KeysetHash DataHash Timeout SignersMask Sig Version].
    exists header, sb. rewrite Etree.
    rewrite !PutUint64_Uint64 by assumption.
    repeat split; try assumption; try apply Uint64_range.
    all: rewrite <- ?app_assoc; reflexivity.
Qed.

(** X4. No input shorter than 177 bytes (a header byte, two hashes, two
    numbers and a signature) deserializes to a certificate. *)
Theorem DeserializeDASCertFrom_short_input (rd : bytes) :
  (length rd < 177)%nat -> is_err (DeserializeDASCertFrom rd) = true.
Proof.
  intros Hlen. unfold DeserializeDASCertFrom, run_reader.
  destruct (DeserializeDASCertFrom_reader rd) as [[c rest]|] eqn:E;
    [|reflexivity].
  exfalso.
  apply DeserializeDASCertFrom_wire_format in E.
  destruct E as (header & sb & Hrd & _ & Hkh & Hdh & _ & _ & _ & Hsb & _).
  apply (f_equal (@length byte)) in Hrd.
  cbn [length] in Hrd. rewrite !length_app in Hrd.
  change (length (PutUint64 (Timeout c))) with 8%nat in Hrd.
  change (length (PutUint64 (SignersMask c))) with 8%nat in Hrd.
  lia.
Qed.

End CertificateParsing.

Lemma DeserializeDASCertFrom_wire_format_witness :
  exists header sigBytes,
    Serialize (demo_cert 604800 1)
    = header :: KeysetHash (demo_cert 604800 1) ++ DataHash (demo_cert 604800 1)
        ++ PutUint64 (Timeout (demo_cert 604800 1))
        ++ (if IsTreeDASMessageHeaderByte header
            then [Version (demo_cert 604800 1)] else [])
        ++ PutUint64 (SignersMask (demo_cert 604800 1)) ++ sigBytes ++ []
    /\ IsDASMessageHeaderByte header = true
    /\ length (KeysetHash (demo_cert 604800 1)) = 32%nat
    /\ length (DataHash (demo_cert 604800 1)) = 32%nat
    /\ is_uint64 (Timeout (demo_cert 604800 1))
    /\ is_uint64 (SignersMask (demo_cert 604800 1))
    /\ (if IsTreeDASMessageHeaderByte header then True
        else Version (demo_cert 604800 1) = x00)
    /\ length sigBytes = 96%nat
    /\ SignatureFromBytes sigBytes = Ok (Sig (demo_cert 604800 1)).
Proof.
  apply (@DeserializeDASCertFrom_wire_format demo_bls demo_flags
           (Serialize (demo_cert 604800 1)) [] (demo_cert 604800 1)).
  vm_compute. reflexivity.
Defined.

Lemma DeserializeDASCertFrom_short_input_witness :
  is_err (DeserializeDASCertFrom (bls := demo_bls) (flags := demo_flags)
            (firstn 176 (Serialize (demo_cert 604800 1)))) = true.
Proof.
  apply (@DeserializeDASCertFrom_short_input demo_bls demo_flags).
  vm_compute. lia.
Defined.

(* ------------------------------------------------------------------ *)
(** ** Readers ignore what follows *)

Lemma ignores_rest_rret {A} (a : A) : ignores_rest (rret a).
Proof. intros rd a' r extra H. inversion H. reflexivity. Qed.

Lemma ignores_rest_rfail {A} (e : error) : ignores_rest (@rfail A e).
Proof. intros rd a r extra H. discriminate. Qed.

Lemma ignores_rest_rbind {A B} (m : Reader A) (k : A -> Reader B) :
  ignores_rest m -> (forall a, ignores_rest (k a)) -> ignores_rest (rbind m k).
Proof.
  intros Hm Hk rd b r extra. unfold rbind.
  destruct (m rd) as [[a r1]|] eqn:E; [|discriminate].
  rewrite (Hm _ _ _ extra E). apply Hk.
Qed.

Lemma ignores_rest_ReadByte : ignores_rest ReadByte.
Proof.
  intros rd a r extra. unfold ReadByte. destruct rd; [discriminate|].
  intros H. inversion H. reflexivity.
Qed.

Lemma ignores_rest_ReadFull (n : nat) : ignores_rest (ReadFull n).
Proof.
  intros rd a r extra H. apply ReadFull_inv in H. destruct H as [-> Hlen].
  rewrite <- app_assoc. apply ReadFull_app. exact Hlen.
Qed.

Section TrailingBytes.
Context `{bls : BlsSignatures} `{flags : HeaderFlags}.

Lemma ignores_rest_DeserializeDASCertFrom_reader :
  ignores_rest DeserializeDASCertFrom_reader.
Proof.
  unfold DeserializeDASCertFrom_reader.
  apply ignores_rest_rbind; [apply ignores_rest_ReadByte|intros header].
  destruct (negb (IsDASMessageHeaderByte header)); [apply ignores_rest_rfail|].
  apply ignores_rest_rbind; [apply ignores_rest_ReadFull|intros kh].
  apply ignores_rest_rbind; [apply ignores_rest_ReadFull|intros dh].
  apply ignores_rest_rbind; [apply ignores_rest_ReadFull|intros tb].
  apply ignores_rest_rbind.
  - destruct (IsTreeDASMessageHeaderByte header); [|apply ignores_rest_rret].
    apply ignores_rest_rbind; [apply ignores_rest_ReadFull|intros vb].
    apply ignores_rest_rret.
  - intros version.
    apply ignores_rest_rbind; [apply ignores_rest_ReadFull|intros mb].
    apply ignores_rest_rbind; [apply ignores_rest_ReadFull|intros sb].
    destruct (SignatureFromBytes sb);
      [apply ignores_rest_rret|apply ignores_rest_rfail].
Qed.

Lemma ignores_rest_read_pubkeys (n : nat) (v : bool) :
  ignores_rest (read_pubkeys n v).
Proof.
  induction n as [|n IH]; cbn [read_pubkeys]; [apply ignores_rest_rret|].
  apply ignores_rest_rbind; [apply ignores_rest_ReadFull|intros buf2].
  apply ignores_rest_rbind; [apply ignores_rest_ReadFull|intros buf].
  destruct (PublicKeyFromBytes buf v); [|apply ignores_rest_rfail].
  apply ignores_rest_rbind; [exact IH|intros rest]. apply ignores_rest_rret.
Qed.

Lemma ignores_rest_DeserializeKeyset_reader (v : bool) :
  ignores_rest (DeserializeKeyset_reader v).
Proof.
  unfold DeserializeKeyset_reader, Uint64FromReader.
  apply ignores_rest_rbind.
  { apply ignores_rest_rbind; [apply ignores_rest_ReadFull|intros b].
    apply ignores_rest_rret. }
  intros assumedHonest.
  apply ignores_rest_rbind.
  { apply ignores_rest_rbind; [apply ignores_rest_ReadFull|intros b].
    apply ignores_rest_rret. }
  intros numKeys.
  destruct (numKeys >? 64); [apply ignores_rest_rfail|].
  apply ignores_rest_rbind; [apply ignores_rest_read_pubkeys|intros pks].
  apply ignores_rest_rret.
Qed.

(** X5. [DeserializeDASCertFrom] does not look beyond the certificate:
    an input that deserializes still deserializes, to the same
    certificate, with any bytes appended. *)
Theorem DeserializeDASCertFrom_ignores_trailing (rd extra : bytes)
    (c : DataAvailabilityCertificate) :
  DeserializeDASCertFrom rd = Ok c ->
  DeserializeDASCertFrom (rd ++ extra) = Ok c.
Proof.
  unfold DeserializeDASCertFrom, run_reader.
  destruct (DeserializeDASCertFrom_reader rd) as [[c' r]|] eqn:E; [|discriminate].
  intros H. inversion H; subst.
  rewrite (ignores_rest_DeserializeDASCertFrom_reader _ _ _ extra E).
  reflexivity.
Qed.

(** X6. [DeserializeKeyset] does not look beyond the last key: an input
    that deserializes still deserializes, to the same keyset, with any
    bytes appended; the keyset does not determine its preimage. *)
Theorem DeserializeKeyset_ignores_trailing (rd extra : bytes) (v : bool)
    (keyset : DataAvailabilityKeyset) :
  DeserializeKeyset rd v = Ok keyset ->
  DeserializeKeyset (rd ++ extra) v = Ok keyset.
Proof.
  unfold DeserializeKeyset, run_reader.
  destruct (DeserializeKeyset_reader v rd) as [[k r]|] eqn:E; [|discriminate].
  intros H. inversion H; subst.
  rewrite (ignores_rest_DeserializeKeyset_reader v _ _ _ extra E).
  reflexivity.
Qed.

End TrailingBytes.

Lemma DeserializeDASCertFrom_ignores_trailing_witness :
  DeserializeDASCertFrom (Serialize (demo_cert 604800 1) ++ [xff; xff])
  = Ok (demo_cert 604800 1).
Proof.
  apply (@DeserializeDASCertFrom_ignores_trailing demo_bls demo_flags
           (Serialize (demo_cert 604800 1)) [xff; xff] (demo_cert 604800 1)).
  vm_compute. reflexivity.
Defined.

Lemma DeserializeKeyset_ignores_trailing_witness :
  DeserializeKeyset (demo_keyset_bytes ++ [xff]) false = Ok demo_keyset.
Proof.
  apply (@DeserializeKeyset_ignores_trailing demo_bls demo_keyset_bytes [xff]
           false demo_keyset).
  vm_compute. reflexivity.
Defined.

(* ------------------------------------------------------------------ *)
(** ** Writing keysets *)

Section KeysetRoundtrip.
Context `{enc : BlsEncoding} `{hashing : Hashing}.

Lemma write_pubkeys_buffer (pks : list PublicKey) (buf : bytes) :
  write_pubkeys pks buf = (None, buf ++ snd (write_pubkeys pks ([] : bytes))).
Proof.
  revert buf. induction pks as [|pk pks IH]; intros buf; cbn [write_pubkeys].
  - rewrite app_nil_r. reflexivity.
  - cbn [Write Buffer_Writer]. rewrite IH. rewrite (IH ([] ++ _)).
    cbn [snd]. rewrite ?app_nil_l, <- ?app_assoc. reflexivity.
Qed.

Lemma Serialize_buffer (keyset : DataAvailabilityKeyset) :
  DataAvailabilityKeyset_Serialize keyset ([] : bytes)
  = (None, PutUint64 (AssumedHonest keyset)
           ++ PutUint64 (wrap64 (Z.of_nat (length (PubKeys keyset))))
           ++ snd (write_pubkeys (PubKeys keyset) ([] : bytes))).
Proof.
  unfold DataAvailabilityKeyset_Serialize, Uint64ToWriter.
  cbn [Write Buffer_Writer]. rewrite write_pubkeys_buffer.
  rewrite app_nil_l, <- app_assoc. reflexivity.
Qed.

Lemma length_write_pubkeys (pks : list PublicKey) :
  length (snd (write_pubkeys pks ([] : bytes)))
  = list_sum (map (fun pk => 2 + length (PublicKeyToBytes pk))%nat pks).
Proof.
  induction pks as [|pk pks IH]; [reflexivity|].
  cbn [write_pubkeys Write Buffer_Writer]. rewrite write_pubkeys_buffer.
  cbn [snd map]. rewrite !length_app, IH. unfold list_sum.
  cbn [length fold_right]. lia.
Qed.

Lemma pk_len_decode (n : nat) :
  Z.of_nat n < 65536 ->
  Z.to_nat (byte_to_Z (Z_to_byte (Z.of_nat n / 256)) * 256
            + byte_to_Z (Z_to_byte (Z.of_nat n mod 256))) = n.
Proof.
  intros Hn. rewrite !byte_to_Z_of_Z.
  rewrite Z.mod_mod by lia.
  rewrite (Z.mod_small (Z.of_nat n / 256))
    by (split; [apply Z.div_pos; lia|apply Z.div_lt_upper_bound; lia]).
  pose proof (Z.div_mod (Z.of_nat n) 256 ltac:(lia)). lia.
Qed.

Lemma read_write_pubkeys (pks : list PublicKey) (v : bool) (rest : bytes) :
  Forall (fun pk => Z.of_nat (length (PublicKeyToBytes pk)) < 65536
                    /\ PublicKeyFromBytes (PublicKeyToBytes pk) v = Ok pk) pks ->
  read_pubkeys (length pks) v (snd (write_pubkeys pks ([] : bytes)) ++ rest)
  = Ok (pks, rest).
Proof.
  induction 1 as [|pk pks [Hlen Hpk] _ IH]; [reflexivity|].
  cbn [length read_pubkeys write_pubkeys Write Buffer_Writer].
  rewrite write_pubkeys_buffer. cbn [snd app].
  rewrite <- !app_assoc. cbn [app].
  unfold rbind at 1.
  match goal with
  | |- context [ReadFull 2 (?a :: ?b :: ?l)] =>
      change (ReadFull 2 (a :: b :: l)) with (Ok ([a; b], l))
  end.
  cbn [nth]. rewrite pk_len_decode by exact Hlen.
  unfold rbind at 1. rewrite ReadFull_app by reflexivity.
  rewrite Hpk. unfold rbind. rewrite IH. reflexivity.
Qed.

(** X7. A keyset written by [Serialize] is read back by
    [DeserializeKeyset]: with at most 64 keys, [assumed_honest] within
    [uint64], and keys that the BLS library writes in fewer than 65536
    bytes and reads back, writing into a buffer does not fail and the
    bytes deserialize to the keyset. *)
Theorem Keyset_Serialize_roundtrip (keyset : DataAvailabilityKeyset) (v : bool) :
  (length (PubKeys keyset) <= 64)%nat ->
  is_uint64 (AssumedHonest keyset) ->
  Forall (fun pk => Z.of_nat (length (PublicKeyToBytes pk)) < 65536
                    /\ PublicKeyFromBytes (PublicKeyToBytes pk) v = Ok pk)
         (PubKeys keyset) ->
  fst (DataAvailabilityKeyset_Serialize keyset ([] : bytes)) = None
  /\ DeserializeKeyset (keyset_bytes keyset) v = Ok keyset.
Proof.
  intros Hn Hah Hpks. unfold keyset_bytes. rewrite Serialize_buffer.
  split; [reflexivity|]. cbn [snd].
  unfold DeserializeKeyset, run_reader, DeserializeKeyset_reader,
    Uint64FromReader.
  unfold rbind at 1 2. rewrite ReadFull_app by reflexivity.
  unfold rret at 1. unfold rbind at 1 2. rewrite ReadFull_app by reflexivity.
  unfold rret at 1.
  rewrite !Uint64_PutUint64.
  assert (Hw : wrap64 (wrap64 (Z.of_nat (length (PubKeys keyset))))
               = Z.of_nat (length (PubKeys keyset))).
  { assert (Hs : is_uint64 (Z.of_nat (length (PubKeys keyset))))
      by (unfold is_uint64; change (2 ^ 64) with 18446744073709551616; lia).
    rewrite (wrap64_small _ Hs), (wrap64_small _ Hs). reflexivity. }
  rewrite Hw, Nat2Z.id.
  assert (Hle : (Z.of_nat (length (PubKeys keyset)) >? 64) = false)
    by (rewrite Z.gtb_ltb; apply Z.ltb_ge; lia).
  rewrite Hle. unfold rbind.
  match goal with
  | |- context [read_pubkeys _ _ ?l] =>
      replace l with (l ++ []) by apply app_nil_r
  end.
  rewrite read_write_pubkeys by exact Hpks.
  unfold rret. rewrite wrap64_small by exact Hah.
  destruct keyset; reflexivity.
Qed.

(** X8. [Serialize] writes a keyset of more than 64 keys without
    complaint, and [DeserializeKeyset] refuses the bytes it wrote. *)
Theorem Keyset_Serialize_too_many_keys (keyset : DataAvailabilityKeyset)
    (v : bool) :
  (64 < length (PubKeys keyset))%nat ->
  Z.of_nat (length (PubKeys keyset)) < 2 ^ 64 ->
  fst (DataAvailabilityKeyset_Serialize keyset ([] : bytes)) = None
  /\ DeserializeKeyset (keyset_bytes keyset) v
     = Err (errors_New "too many keys in serialized DataAvailabilityKeyset").
Proof.
  intros Hn Hfit. unfold keyset_bytes. rewrite Serialize_buffer.
  split; [reflexivity|]. cbn [snd].
  unfold DeserializeKeyset, run_reader, DeserializeKeyset_reader,
    Uint64FromReader.
  unfold rbind at 1 2. rewrite ReadFull_app by reflexivity.
  unfold rret at 1. unfold rbind at 1 2. rewrite ReadFull_app by reflexivity.
  unfold rret at 1.
  rewrite Uint64_PutUint64.
  assert (Hs : is_uint64 (Z.of_nat (length (PubKeys keyset))))
    by (unfold is_uint64; lia).
  rewrite (wrap64_small _ Hs), (wrap64_small _ Hs).
  assert (Hgt : (Z.of_nat (length (PubKeys keyset)) >? 64) = true)
    by (apply Z.gtb_lt; lia).
  rewrite Hgt. reflexivity.
Qed.

(** X9. [Hash] of a keyset fails exactly when its wire format, 16 bytes
    and two more than its length for every key, is longer than the bin
    size; otherwise it is the tree hash of the wire format. Writing into
    the buffer never fails. *)
Theorem Keyset_Hash_size (keyset : DataAvailabilityKeyset) :
  length (keyset_bytes keyset) = keyset_size keyset
  /\ DataAvailabilityKeyset_Hash keyset
     = if BinSize <? Z.of_nat (keyset_size keyset)
       then Err (errors_New "keyset too large")
       else Ok (dastree_Hash (keyset_bytes keyset)).
Proof.
  assert (Hlen : length (keyset_bytes keyset) = keyset_size keyset).
  { unfold keyset_bytes, keyset_size. rewrite Serialize_buffer. cbn [snd].
    rewrite !length_app, length_write_pubkeys. reflexivity. }
  split; [exact Hlen|].
  unfold DataAvailabilityKeyset_Hash. rewrite <- Hlen. unfold keyset_bytes.
  rewrite Serialize_buffer. cbn [snd]. reflexivity.
Qed.

End KeysetRoundtrip.

Lemma Keyset_Serialize_roundtrip_witness :
  fst (DataAvailabilityKeyset_Serialize demo_keyset ([] : bytes)) = None
  /\ DeserializeKeyset (keyset_bytes demo_keyset) false = Ok demo_keyset.
Proof.
  apply (@Keyset_Serialize_roundtrip demo_bls demo_enc demo_keyset false).
  - cbn. lia.
  - unfold is_uint64. cbn. lia.
  - repeat constructor.
Defined.

Lemma Keyset_Serialize_too_many_keys_witness :
  fst (DataAvailabilityKeyset_Serialize big_keyset ([] : bytes)) = None
  /\ DeserializeKeyset (keyset_bytes big_keyset) false
     = Err (errors_New "too many keys in serialized DataAvailabilityKeyset").
Proof.
  apply (@Keyset_Serialize_too_many_keys demo_bls demo_enc big_keyset false).
  - cbn. lia.
  - cbn. lia.
Defined.

(* ------------------------------------------------------------------ *)
(** ** The signature verifier *)

Section VerifierProperties.
Context `{bls : BlsSignatures}.

Lemma select_signers_keys (m : Z) (pks : list PublicKey) :
  forall i acc nn,
    0 <= i -> i + Z.of_nat (length pks) <= 64 ->
    fst (select_signers i pks m acc nn) = acc ++ signing_keys i pks m.
Proof.
  induction pks as [|pk pks IH]; intros i acc nn Hi Hn.
  - cbn. rewrite app_nil_r. reflexivity.
  - cbn [select_signers signing_keys length] in *.
    rewrite mask_bit_testbit by lia.
    destruct (Z.testbit m i); rewrite IH by lia.
    + rewrite <- app_assoc. reflexivity.
    + reflexivity.
Qed.

Lemma select_signers_nonneg (m : Z) (pks : list PublicKey) :
  forall i acc nn, 0 <= nn -> 0 <= snd (select_signers i pks m acc nn).
Proof.
  induction pks as [|pk pks IH]; intros i acc nn Hnn; [exact Hnn|].
  cbn [select_signers]. destruct (mask_bit i m); apply IH; [exact Hnn|].
  unfold wrap64. apply Z.mod_pos_bound. lia.
Qed.

(** X10. What [VerifySignature] verifies. For a keyset of at most 64
    keys it returns no error exactly when fewer than [assumed_honest] of
    the key positions are clear in the mask and the BLS library accepts
    the signature for the data under the aggregate of the keys at the
    set positions, taken in keyset order. *)
Theorem VerifySignature_accepts_iff (keyset : DataAvailabilityKeyset)
    (signersMask : Z) (data : bytes) (sig : Signature) :
  (length (PubKeys keyset) <= 64)%nat ->
  VerifySignature keyset signersMask data sig = None
  <-> non_signers 0 (length (PubKeys keyset)) signersMask < AssumedHonest keyset
      /\ bls_VerifySignature sig data
           (AggregatePublicKeys (signing_keys 0 (PubKeys keyset) signersMask))
         = Ok true.
Proof.
  intros Hlen. unfold VerifySignature.
  pose proof (select_signers_count signersMask (PubKeys keyset) 0 [] 0) as Hc.
  pose proof (select_signers_keys signersMask (PubKeys keyset) 0 [] 0) as Hk.
  destruct (select_signers 0 (PubKeys keyset) signersMask [] 0) as [pubkeys nn].
  cbn [fst snd] in Hc, Hk.
  rewrite Hc by (change (2 ^ 64) with 18446744073709551616; lia).
  rewrite Hk by lia. cbn [app].
  destruct (Z.geb_spec (0 + non_signers 0 (length (PubKeys keyset)) signersMask)
              (AssumedHonest keyset)) as [Hge|Hlt].
  - split; [discriminate|intros [H _]; lia].
  - destruct (bls_VerifySignature sig data _) as [[|]|e]; cbn [negb].
    + split; [intros _; split; [lia|reflexivity]|reflexivity].
    + split; [discriminate|intros [_ H]; discriminate].
    + split; [discriminate|intros [_ H]; discriminate].
Qed.

(** X11. A keyset whose [assumed_honest] is 0 verifies nothing: whatever
    the mask, the data and the signature, the result is the error "not
    enough signers", and the BLS library is not consulted. *)
Theorem VerifySignature_assumed_honest_zero (keyset : DataAvailabilityKeyset)
    (signersMask : Z) (data : bytes) (sig : Signature) :
  AssumedHonest keyset = 0 ->
  VerifySignature keyset signersMask data sig
  = Some (errors_New "not enough signers").
Proof.
  intros H0. unfold VerifySignature.
  pose proof (select_signers_nonneg signersMask (PubKeys keyset) 0 [] 0
                ltac:(lia)) as Hnn.
  destruct (select_signers 0 (PubKeys keyset) signersMask [] 0) as [pubkeys nn].
  cbn [snd] in Hnn. rewrite H0.
  destruct (Z.geb_spec nn 0); [reflexivity|lia].
Qed.

End VerifierProperties.

Lemma VerifySignature_accepts_iff_witness :
  VerifySignature demo_keyset 1 [x01] (pad_to 96 [x2a; x01]) = None
  <-> non_signers 0 (length (PubKeys demo_keyset)) 1 < AssumedHonest demo_keyset
      /\ bls_VerifySignature (pad_to 96 [x2a; x01]) [x01]
           (AggregatePublicKeys (signing_keys 0 (PubKeys demo_keyset) 1))
         = Ok true.
Proof.
  apply (@VerifySignature_accepts_iff demo_bls demo_keyset 1 [x01]
           (pad_to 96 [x2a; x01])).
  cbn. lia.
Defined.

Lemma VerifySignature_assumed_honest_zero_witness :
  VerifySignature zero_honest_keyset 1 [x01] (pad_to 96 [x2a; x01])
  = Some (errors_New "not enough signers").
Proof.
  apply (@VerifySignature_assumed_honest_zero demo_bls zero_honest_keyset 1
           [x01] (pad_to 96 [x2a; x01])).
  reflexivity.
Defined.

(* ------------------------------------------------------------------ *)
(** ** More on batch recovery *)

Lemma recorded_app (t1 t2 : list event) :
  recorded (t1 ++ t2) = recorded t1 ++ recorded t2.
Proof. unfold recorded. apply filter_app. Qed.

Section RecoveryOutcomes.
Context `{bls : BlsSignatures} `{flags : HeaderFlags} `{hashing : Hashing}.
Context {W : Type} `{reader : DASReader W} `{fetcher : DASKeysetFetcher W}.
Variable PreimagesMap : Type.

Local Abbreviation Recover := (RecoverPayloadFromDasBatch PreimagesMap).

(** What [getByHash] returns has the hash that was asked for, and the
    recorder is not touched. *)
Lemma getByHash_ok_inv (version : byte) (hash : bytes) (st st' : state W)
    (payload : bytes) :
  getByHash version hash st = Return (Ok payload, st') ->
  (byte_to_Z version = 0 -> Keccak256Hash payload = hash)
  /\ (byte_to_Z version = 1 -> dastree_Hash payload = hash).
Proof.
  unfold getByHash, bind, call, emit, ret.
  generalize (byte_to_Z version) as bv. intros bv.
  repeat (destruct_match_goal; try discriminate);
    intros H; inversion H; subst;
    (split; intros Hv; subst bv;
     cbn [Z.eqb Pos.eqb] in *; try discriminate;
     match goal with
     | E : (_ || _) = false |- _ =>
         apply orb_false_iff in E; destruct E as [E0 E1];
         cbn [andb] in E0, E1
     end;
     first [ apply negb_false_iff, bytes_eqb_eq in E0; exact E0
           | apply negb_false_iff, bytes_eqb_eq in E1; exact E1 ]).
Qed.

Lemma getByHash_recorded (version : byte) (hash : bytes) (st st' : state W)
    (r : result bytes) :
  getByHash version hash st = Return (r, st') ->
  recorded (trace st') = recorded (trace st).
Proof.
  unfold getByHash, bind, call, emit, ret.
  repeat (destruct_match_goal; try discriminate);
    intros H; inversion H; subst; cbn [trace];
    rewrite ?recorded_app; cbn; rewrite ?app_nil_r; reflexivity.
Qed.

(** The run of an accepted batch, with its effects. *)
Lemma Recover_accepted_run batchNum sequencerMsg preimages validateSeqMsg
    (st st' : state W) payload pm err :
  Recover batchNum sequencerMsg preimages validateSeqMsg st
  = Return ((Some payload, pm, err), st') ->
  exists cert keysetPreimage w1 s2,
    DeserializeDASCertFrom (skipn 40 sequencerMsg) = Ok cert
    /\ 0 <= byte_to_Z (Version cert) < 2
    /\ GetKeysetByHash (KeysetHash cert) (ext st) = (Ok keysetPreimage, w1)
    /\ getByHash (Version cert) (DataHash cert)
         {| ext := w1;
            trace := (trace st ++ [Call_GetKeysetByHash (KeysetHash cert)])
                     ++ match preimages with
                        | Some _ => [Record_hash_tree keysetPreimage]
                        | None => []
                        end |}
       = Return (Ok payload, s2)
    /\ ext st' = ext s2
    /\ trace st'
       = trace s2
         ++ match preimages with
            | Some _ =>
                if byte_to_Z (Version cert) =? 0 then
                  [Record_preimage (DataHash cert) payload Keccak256PreimageType;
                   Record_preimage
                     (Keccak256Hash (FlatHashToTreeLeaf (DataHash cert)))
                     (FlatHashToTreeLeaf (DataHash cert)) Keccak256PreimageType]
                else [Record_hash_tree payload]
            | None => []
            end.
Proof.
  unfold RecoverPayloadFromDasBatch, soft_skip.
  unfold bind at 1. unfold slice_from.
  destruct (length sequencerMsg <? 40)%nat eqn:Elen; [discriminate|].
  apply Nat.ltb_ge in Elen. unfold ret at 1.
  destruct (DeserializeDASCertFrom (skipn 40 sequencerMsg)) as [cert|] eqn:Ecert;
    [|unfold bind, emit, ret; intros H; discriminate].
  destruct (byte_to_Z (Version cert) >=? 2) eqn:Ever;
    [unfold bind, emit, ret; intros H; discriminate|].
  unfold bind at 1. unfold call at 1.
  destruct (GetKeysetByHash (KeysetHash cert) (ext st)) as [[kp|e] w1] eqn:Eks;
    [|unfold bind, emit, ret; intros H; discriminate].
  unfold bind at 1.
  match goal with
  | |- context [(if ?c then emit ?e else ret tt) ?s] =>
      assert (Hrec : (if c then emit e else ret tt) s
                     = Return (tt, {| ext := w1;
                                      trace := trace s
                                        ++ match preimages with
                                           | Some _ => [e]
                                           | None => []
                                           end |}))
        by (destruct preimages; unfold emit, ret; cbn [ext trace];
            rewrite ?app_nil_r; reflexivity);
      rewrite Hrec; clear Hrec
  end.
  cbn [trace].
  destruct (DeserializeKeyset kp (negb validateSeqMsg)) as [keyset|] eqn:Ekd;
    [|unfold ret; intros H; discriminate].
  destruct (VerifySignature keyset (SignersMask cert)
              (SerializeSignableFields cert) (Sig cert)) eqn:Evs;
    [unfold bind, emit, ret; intros H; discriminate|].
  unfold bind at 1. unfold slice.
  destruct (length sequencerMsg <? 16)%nat eqn:E16;
    [apply Nat.ltb_lt in E16; lia|].
  unfold ret at 1.
  destruct (Timeout cert <? _) eqn:Etime;
    [unfold bind, emit, ret; intros H; discriminate|].
  unfold bind at 1.
  destruct (getByHash (Version cert) (DataHash cert) _) as [|[[p|e] s2]] eqn:Eget;
    [discriminate| |unfold bind, emit, ret; intros H; discriminate].
  intros H.
  exists cert, kp, w1, s2.
  pose proof (byte_to_Z_range (Version cert)) as Hvr.
  destruct (Z.geb_spec (byte_to_Z (Version cert)) 2); [discriminate|].
  destruct preimages as [pmap|];
    [destruct (byte_to_Z (Version cert) =? 0)|];
    unfold bind, emit, ret in H; cbn [ext trace] in H;
    inversion H; subst; cbn [ext trace];
    (repeat split; try assumption; try reflexivity; try lia;
     rewrite <- ?app_assoc, ?app_nil_r; reflexivity).
Qed.

(** X12. The payload that recovery returns has the hash of the
    certificate, in the scheme of its version: the Keccak-256 hash for
    version 0, the tree hash for version 1; there is no other version
    among the accepted certificates. *)
Theorem Recover_payload_matches_hash batchNum sequencerMsg preimages
    validateSeqMsg (st st' : state W) payload pm err :
  Recover batchNum sequencerMsg preimages validateSeqMsg st
  = Return ((Some payload, pm, err), st') ->
  exists cert,
    DeserializeDASCertFrom (skipn 40 sequencerMsg) = Ok cert
    /\ ((byte_to_Z (Version cert) = 0
         /\ Keccak256Hash payload = DataHash cert)
        \/ (byte_to_Z (Version cert) = 1
            /\ dastree_Hash payload = DataHash cert)).
Proof.
  intros H. apply Recover_accepted_run in H.
  destruct H as (cert & kp & w1 & s2 & Hc & Hv & _ & Hget & _).
  exists cert. split; [exact Hc|].
  apply getByHash_ok_inv in Hget. destruct Hget as [H0 H1].
  assert (Hcase : byte_to_Z (Version cert) = 0 \/ byte_to_Z (Version cert) = 1)
    by lia.
  destruct Hcase as [E|E]; [left|right]; split; auto.
Qed.

(** X13. What an accepted batch records. With a preimages map the
    recorder is given, in this order, the keyset preimage for the tree
    hash, and then for version 0 the payload under the data hash and the
    tree leaf of the data hash under its Keccak-256 hash, for version 1
    the payload for the tree hash; without a map nothing is recorded. *)
Theorem Recover_accepted_records batchNum sequencerMsg preimages
    validateSeqMsg (st st' : state W) payload pm err :
  Recover batchNum sequencerMsg preimages validateSeqMsg st
  = Return ((Some payload, pm, err), st') ->
  exists cert keysetPreimage w1,
    DeserializeDASCertFrom (skipn 40 sequencerMsg) = Ok cert
    /\ GetKeysetByHash (KeysetHash cert) (ext st) = (Ok keysetPreimage, w1)
    /\ recorded (trace st')
       = recorded (trace st)
         ++ match preimages with
            | None => []
            | Some _ =>
                Record_hash_tree keysetPreimage
                :: (if byte_to_Z (Version cert) =? 0 then
                      [Record_preimage (DataHash cert) payload
                         Keccak256PreimageType;
                       Record_preimage
                         (Keccak256Hash (FlatHashToTreeLeaf (DataHash cert)))
                         (FlatHashToTreeLeaf (DataHash cert))
                         Keccak256PreimageType]
                    else [Record_hash_tree payload])
            end.
Proof.
  intros H. apply Recover_accepted_run in H.
  destruct H as (cert & kp & w1 & s2 & Hc & _ & Hk & Hget & _ & Htr).
  exists cert, kp, w1. split; [exact Hc|]. split; [exact Hk|].
  apply getByHash_recorded in Hget. cbn [trace] in Hget.
  rewrite Htr, recorded_app, Hget, !recorded_app.
  destruct preimages as [pmap|]; [destruct (byte_to_Z (Version cert) =? 0)|];
    cbn; rewrite ?app_nil_r, <- ?app_assoc; reflexivity.
Qed.


(** X15. Without a preimages map recovery records nothing, whatever the
    outcome. *)
Theorem Recover_without_map_records_nothing batchNum sequencerMsg
    validateSeqMsg (st st' : state W) (r : recovered PreimagesMap) :
  Recover batchNum sequencerMsg None validateSeqMsg st = Return (r, st') ->
  recorded (trace st') = recorded (trace st).
Proof.
  unfold RecoverPayloadFromDasBatch, slice_from, slice, soft_skip.
  unfold bind, call, emit, ret, panic.
  repeat (destruct_match_goal; try discriminate);
    intros H; inversion H; subst; cbn [trace];
    repeat match goal with
           | E : getByHash _ _ _ = Return _ |- _ =>
               apply getByHash_recorded in E; cbn [trace] in E
           end;
    rewrite ?recorded_app;
    repeat match goal with
           | E : recorded _ = _ |- _ => rewrite E; clear E
           end;
    rewrite ?recorded_app; cbn; rewrite ?app_nil_r; reflexivity.
Qed.

(** X16. A certificate of version 2 or more is skipped before anything
    is fetched: the result is the soft skip, one error is logged, and
    neither the keyset fetcher nor the reader is called. *)
Theorem Recover_unknown_version batchNum sequencerMsg preimages
    validateSeqMsg (st : state W) cert :
  (40 <= length sequencerMsg)%nat ->
  DeserializeDASCertFrom (skipn 40 sequencerMsg) = Ok cert ->
  2 <= byte_to_Z (Version cert) ->
  Recover batchNum sequencerMsg preimages validateSeqMsg st
  = Return (soft_skip PreimagesMap,
            {| ext := ext st;
               trace := trace st
                 ++ [Log LvlError "Your node software is probably out of date"] |}).
Proof.
  intros Hlen Hc Hv. unfold RecoverPayloadFromDasBatch, slice_from.
  assert (E40 : (length sequencerMsg <? 40)%nat = false) by (apply Nat.ltb_ge; lia).
  rewrite E40. unfold bind at 1. unfold ret at 1. rewrite Hc.
  assert (Ege : (byte_to_Z (Version cert) >=? 2) = true)
    by (destruct (Z.geb_spec (byte_to_Z (Version cert)) 2); [reflexivity|lia]).
  rewrite Ege. reflexivity.
Qed.

(** X17. The reader for nitro leaves foreign batches alone: when byte 40
    of the sequencer message is not a valid header byte, recovery
    returns the soft skip, logs one error and calls neither the keyset
    fetcher nor the reader. *)
Theorem readerForDAS_skips_invalid_header batchNum batchBlockHash sequencerMsg
    preimages validateSeqMsg (st : state W) :
  (40 < length sequencerMsg)%nat ->
  readerForDAS_IsValidHeaderByte (nth 40 sequencerMsg x00) = false ->
  readerForDAS_RecoverPayloadFromBatch PreimagesMap batchNum batchBlockHash
    sequencerMsg preimages validateSeqMsg st
  = Return (soft_skip PreimagesMap,
            {| ext := ext st;
               trace := trace st
                 ++ [Log LvlError "Failed to deserialize DAS message"] |}).
Proof.
  intros Hlen Hhdr.
  unfold readerForDAS_RecoverPayloadFromBatch, RecoverPayloadFromDasBatch,
    slice_from.
  assert (E40 : (length sequencerMsg <? 40)%nat = false) by (apply Nat.ltb_ge; lia).
  rewrite E40. unfold bind at 1. unfold ret at 1.
  assert (Hparse : exists e, DeserializeDASCertFrom (skipn 40 sequencerMsg) = Err e).
  { unfold DeserializeDASCertFrom, run_reader, DeserializeDASCertFrom_reader.
    unfold rbind at 1. unfold ReadByte.
    destruct (skipn 40 sequencerMsg) as [|b tl] eqn:Esk.
    - apply (f_equal (@length byte)) in Esk. rewrite length_skipn in Esk.
      cbn in Esk. lia.
    - assert (Hb : b = nth 40 sequencerMsg x00).
      { rewrite <- (firstn_skipn 40 sequencerMsg) at 1.
        rewrite app_nth2 by (rewrite length_firstn; lia).
        rewrite length_firstn, Nat.min_l by lia. rewrite Nat.sub_diag, Esk.
        reflexivity. }
      subst b. unfold readerForDAS_IsValidHeaderByte in Hhdr. rewrite Hhdr.
      cbn [negb]. eexists. reflexivity. }
  destruct Hparse as [e He]. rewrite He. reflexivity.
Qed.

(** X18. Bytes that do not hash to what was asked for are a hard error.
    When the first answer of the reader, under the tree form of the hash
    for version 0 and under the hash itself for version 1, is a byte
    string with another hash, [getByHash] returns [ErrHashMismatch]
    without asking again. *)
Theorem getByHash_hash_mismatch (version : byte) (hash payload : bytes)
    (st : state W) (w1 : W) :
  GetByHash (if byte_to_Z version =? 0 then FlatHashToTreeHash hash else hash)
    (ext st) = (Ok payload, w1) ->
  (byte_to_Z version = 0 /\ Keccak256Hash payload <> hash)
  \/ (byte_to_Z version = 1 /\ dastree_Hash payload <> hash) ->
  exists st',
    getByHash version hash st = Return (Err ErrHashMismatch, st')
    /\ reader_calls (trace st')
       = reader_calls (trace st)
         ++ [if byte_to_Z version =? 0 then FlatHashToTreeHash hash else hash].
Proof.
  intros Hget Hbad. unfold getByHash.
  unfold bind at 1. unfold call at 1. rewrite Hget.
  cbn [is_err andb]. unfold bind at 1. unfold ret at 1.
  assert (Hcond :
    ((byte_to_Z version =? 0) && negb (bytes_eqb (Keccak256Hash payload) hash)
     || (byte_to_Z version =? 1) && negb (bytes_eqb (dastree_Hash payload) hash))
    = true).
  { destruct Hbad as [[Hv Hne]|[Hv Hne]]; rewrite Hv; cbn [Z.eqb andb orb];
      apply bytes_eqb_neq in Hne; rewrite Hne; cbn; reflexivity. }
  rewrite Hcond. unfold bind, emit, ret. cbn [ext trace].
  eexists. split; [reflexivity|]. cbn [trace].
  rewrite !reader_calls_app. cbn. rewrite app_nil_r. reflexivity.
Qed.

End RecoveryOutcomes.

Lemma Recover_payload_matches_hash_witness :
  exists cert,
    DeserializeDASCertFrom (skipn 40 msg_accepted) = Ok cert
    /\ ((byte_to_Z (Version cert) = 0
         /\ Keccak256Hash demo_payload = DataHash cert)
        \/ (byte_to_Z (Version cert) = 1
            /\ dastree_Hash demo_payload = DataHash cert)).
Proof.
  eapply (@Recover_payload_matches_hash demo_bls demo_flags demo_hashing
            store demo_reader demo_fetcher unit 7 msg_accepted None true
            (init_state demo_store) _ demo_payload None None).
  vm_compute. reflexivity.
Defined.

Lemma Recover_accepted_records_witness :
  exists cert keysetPreimage w1,
    DeserializeDASCertFrom (skipn 40 msg_accepted) = Ok cert
    /\ GetKeysetByHash (KeysetHash cert) demo_store = (Ok keysetPreimage, w1)
    /\ exists st',
         RecoverPayloadFromDasBatch unit 7 msg_accepted (Some tt) true
           (init_state demo_store)
         = Return ((Some demo_payload, Some tt, None), st')
         /\ recorded (trace st')
            = [Record_hash_tree keysetPreimage; Record_hash_tree demo_payload].
Proof.
  assert (Hrun : exists st',
             RecoverPayloadFromDasBatch unit 7 msg_accepted (Some tt) true
               (init_state demo_store)
             = Return ((Some demo_payload, Some tt, None), st'))
    by (eexists; vm_compute; reflexivity).
  destruct Hrun as [st' Hrun].
  destruct (@Recover_accepted_records demo_bls demo_flags demo_hashing
              store demo_reader demo_fetcher unit 7 msg_accepted (Some tt) true
              (init_state demo_store) st' demo_payload (Some tt) None Hrun)
    as (cert & kp & w1 & Hc & Hk & Hrec).
  exists cert, kp, w1. split; [exact Hc|]. split; [exact Hk|].
  exists st'. split; [exact Hrun|].
  rewrite Hrec.
  assert (Hcert : cert = demo_cert 604800 1).
  { assert (Hd : DeserializeDASCertFrom (skipn 40 msg_accepted)
                 = Ok (demo_cert 604800 1)) by (vm_compute; reflexivity).
    rewrite Hd in Hc. inversion Hc. reflexivity. }
  subst cert. reflexivity.
Defined.


Lemma Recover_without_map_records_nothing_witness :
  exists st',
    RecoverPayloadFromDasBatch unit 7 msg_accepted None true
      (init_state demo_store)
    = Return ((Some demo_payload, None, None), st')
    /\ recorded (trace st') = recorded (trace (init_state demo_store)).
Proof.
  assert (Hrun : exists st',
             RecoverPayloadFromDasBatch unit 7 msg_accepted None true
               (init_state demo_store)
             = Return ((Some demo_payload, None, None), st'))
    by (eexists; vm_compute; reflexivity).
  destruct Hrun as [st' Hrun]. exists st'. split; [exact Hrun|].
  exact (@Recover_without_map_records_nothing demo_bls demo_flags demo_hashing
           store demo_reader demo_fetcher unit 7 msg_accepted true
           (init_state demo_store) st' _ Hrun).
Defined.

Lemma Recover_unknown_version_witness :
  RecoverPayloadFromDasBatch unit 7 msg_version2 None true
    (init_state demo_store)
  = Return (soft_skip unit,
            {| ext := demo_store;
               trace := [] ++ [Log LvlError
                                 "Your node software is probably out of date"] |}).
Proof.
  eapply (@Recover_unknown_version demo_bls demo_flags demo_hashing
            store demo_reader demo_fetcher unit 7 msg_version2 None true
            (init_state demo_store)).
  - vm_compute. lia.
  - vm_compute. reflexivity.
  - vm_compute. discriminate.
Defined.

Lemma readerForDAS_skips_invalid_header_witness :
  readerForDAS_RecoverPayloadFromBatch unit 7 [] (repeat x00 41) None true
    (init_state demo_store)
  = Return (soft_skip unit,
            {| ext := demo_store;
               trace := [] ++ [Log LvlError "Failed to deserialize DAS message"] |}).
Proof.
  apply (@readerForDAS_skips_invalid_header demo_bls demo_flags demo_hashing
           store demo_reader demo_fetcher unit 7 [] (repeat x00 41) None true
           (init_state demo_store)).
  - vm_compute. lia.
  - vm_compute. reflexivity.
Defined.

Lemma getByHash_hash_mismatch_witness :
  exists st',
    getByHash x01 (DataHash (demo_cert 604800 1)) (init_state wrong_store)
    = Return (Err ErrHashMismatch, st')
    /\ reader_calls (trace st')
       = reader_calls (trace (init_state wrong_store))
         ++ [if byte_to_Z x01 =? 0
             then FlatHashToTreeHash (DataHash (demo_cert 604800 1))
             else DataHash (demo_cert 604800 1)].
Proof.
  apply (@getByHash_hash_mismatch demo_hashing store demo_reader x01
           (DataHash (demo_cert 604800 1)) [x00] (init_state wrong_store)
           wrong_store).
  - vm_compute. reflexivity.
  - right. split; [reflexivity|]. vm_compute. discriminate.
Defined.

(* ------------------------------------------------------------------ *)
(** ** More on the signed Redis cache *)

Lemma outside_calls_app (t1 t2 : list event) :
  outside_calls (t1 ++ t2) = outside_calls t1 ++ outside_calls t2.
Proof. unfold outside_calls. apply filter_app. Qed.

Section CacheProperties.
Context `{deps : CacheDeps} `{hashing : Hashing}.
Context {W : Type} `{base : StorageService W} `{client : RedisClient W}.

(** X19. What the cache accepts as a signed entry: [verifyMessageSignature]
    returns a message exactly for the byte strings that [signMessage]
    produces from that message under the signing key, with a tag of 32
    bytes; a shorter entry, a cut entry or an entry with another tag is
    refused. *)
Theorem verifyMessageSignature_accepts_iff (rs : RedisStorageService)
    (data message : bytes) :
  verifyMessageSignature rs data = Ok message
  <-> data = signMessage rs message
      /\ length (hmac_keccak256 (signingKey rs) message) = 32%nat.
Proof.
  unfold verifyMessageSignature, signMessage. split.
  - destruct (length data <? 32)%nat eqn:Elen; [discriminate|].
    apply Nat.ltb_ge in Elen.
    destruct (bytes_eqb _ _) eqn:Eeq; cbn [negb]; [|discriminate].
    intros H. inversion H. apply bytes_eqb_eq in Eeq.
    split.
    + rewrite <- Eeq. symmetry. apply firstn_skipn.
    + rewrite <- Eeq. rewrite length_skipn. lia.
  - intros [-> Hlen].
    assert (Hl : (length (message ++ hmac_keccak256 (signingKey rs) message)
                  <? 32)%nat = false)
      by (apply Nat.ltb_ge; rewrite length_app; lia).
    rewrite Hl. rewrite length_app, Hlen, Nat.add_sub.
    rewrite firstn_app, skipn_app, firstn_all, skipn_all, Nat.sub_diag.
    cbn [firstn skipn app]. rewrite app_nil_r, bytes_eqb_refl. reflexivity.
Qed.

(** X20. A cache hit does not reach the base store. When Redis returns
    under the key an entry that [signMessage] made from a message, with a
    tag of 32 bytes, [GetByHash] returns the message; its only call to
    the outside is the Redis [GET]. *)
Theorem GetByHash_cache_hit (rs : RedisStorageService) (key message : bytes)
    (st : state W) (w1 : W) :
  client_Get key (ext st) = (Ok (signMessage rs message), w1) ->
  length (hmac_keccak256 (signingKey rs) message) = 32%nat ->
  exists st',
    RedisStorageService_GetByHash rs key st = Return (Ok message, st')
    /\ ext st' = w1
    /\ outside_calls (trace st')
       = outside_calls (trace st) ++ [Call_redis_Get key].
Proof.
  intros Hget Hlen.
  assert (Hv : verifyMessageSignature rs (signMessage rs message) = Ok message)
    by (apply verifyMessageSignature_accepts_iff; split; [reflexivity|exact Hlen]).
  unfold RedisStorageService_GetByHash, getVerifiedData.
  unfold bind at 1 2 3. unfold emit at 1. unfold call at 1. cbn [ext trace].
  rewrite Hget, Hv. unfold ret. eexists. split; [reflexivity|].
  cbn [ext trace]. split; [reflexivity|].
  rewrite !outside_calls_app. cbn. rewrite app_nil_r. reflexivity.
Qed.

(** X21. When the cache has no valid entry and the base store fails,
    [GetByHash] returns the error of the base store and writes nothing to
    Redis: its calls to the outside are the Redis [GET] and the
    [GetByHash] of the base store. *)
Theorem GetByHash_base_failure (rs : RedisStorageService) (key : bytes)
    (st : state W) (r : result bytes) (w1 w2 : W) (e : error) :
  client_Get key (ext st) = (r, w1) ->
  is_err (match r with
          | Err e => Err e
          | Ok data => verifyMessageSignature rs data
          end) = true ->
  base_GetByHash key w1 = (Err e, w2) ->
  exists st',
    RedisStorageService_GetByHash rs key st = Return (Err e, st')
    /\ ext st' = w2
    /\ outside_calls (trace st')
       = outside_calls (trace st)
         ++ [Call_redis_Get key; Call_base_GetByHash key].
Proof.
  intros Hget Hfail Hbase. unfold RedisStorageService_GetByHash, getVerifiedData.
  unfold bind at 1 2 3. unfold emit at 1. unfold call at 1. cbn [ext trace].
  rewrite Hget.
  destruct r as [data|e0].
  - destruct (verifyMessageSignature rs data) as [m|e0]; [discriminate|].
    unfold ret at 1. unfold bind at 1. unfold call at 1. cbn [ext trace].
    rewrite Hbase. unfold ret. eexists. split; [reflexivity|].
    cbn [ext trace]. split; [reflexivity|].
    rewrite !outside_calls_app. cbn. rewrite app_nil_r, <- app_assoc.
    reflexivity.
  - unfold bind at 1 2. unfold emit at 1. unfold ret at 1. cbn [ext trace].
    unfold bind at 1. unfold call at 1. cbn [ext trace].
    rewrite Hbase. unfold ret. eexists. split; [reflexivity|].
    cbn [ext trace]. split; [reflexivity|].
    rewrite !outside_calls_app. cbn. rewrite !app_nil_r, <- app_assoc.
    reflexivity.
Qed.

(** X22. The refresh after a miss writes a valid entry. When the cache
    has no valid entry, the base store has the value and the Redis [SET]
    succeeds, [GetByHash] returns the value, and what it wrote to Redis,
    under the same key and with the configured expiration, is an entry
    that [verifyMessageSignature] accepts as that value (the tag being
    32 bytes). *)
Theorem GetByHash_refresh_writes_valid_entry (rs : RedisStorageService)
    (key : bytes) (st : state W) (r : result bytes) (w1 w2 w3 : W)
    (value : bytes) :
  client_Get key (ext st) = (r, w1) ->
  is_err (match r with
          | Err e => Err e
          | Ok data => verifyMessageSignature rs data
          end) = true ->
  base_GetByHash key w1 = (Ok value, w2) ->
  client_Set key (signMessage rs value) (Expiration (redisConfig rs)) w2
  = (None, w3) ->
  length (hmac_keccak256 (signingKey rs) value) = 32%nat ->
  exists st' entry,
    RedisStorageService_GetByHash rs key st = Return (Ok value, st')
    /\ ext st' = w3
    /\ outside_calls (trace st')
       = outside_calls (trace st)
         ++ [Call_redis_Get key; Call_base_GetByHash key;
             Call_redis_Set key entry (Expiration (redisConfig rs))]
    /\ verifyMessageSignature rs entry = Ok value.
Proof.
  intros Hget Hfail Hbase Hset Hlen.
  assert (Hv : verifyMessageSignature rs (signMessage rs value) = Ok value)
    by (apply verifyMessageSignature_accepts_iff; split; [reflexivity|exact Hlen]).
  unfold RedisStorageService_GetByHash, getVerifiedData.
  unfold bind at 1 2 3. unfold emit at 1. unfold call at 1. cbn [ext trace].
  rewrite Hget.
  destruct r as [data|e0].
  - destruct (verifyMessageSignature rs data) as [m|e0]; [discriminate|].
    unfold ret at 1. unfold bind at 1. unfold call at 1. cbn [ext trace].
    rewrite Hbase. unfold bind, call. cbn [ext trace]. rewrite Hset.
    unfold ret. eexists. exists (signMessage rs value).
    split; [reflexivity|]. cbn [ext trace]. split; [reflexivity|].
    split; [|exact Hv].
    rewrite !outside_calls_app. cbn. rewrite !app_nil_r, <- !app_assoc.
    reflexivity.
  - unfold bind at 1 2. unfold emit at 1. unfold ret at 1. cbn [ext trace].
    unfold bind at 1. unfold call at 1. cbn [ext trace].
    rewrite Hbase. unfold bind, call. cbn [ext trace]. rewrite Hset.
    unfold ret. eexists. exists (signMessage rs value).
    split; [reflexivity|]. cbn [ext trace]. split; [reflexivity|].
    split; [|exact Hv].
    rewrite !outside_calls_app. cbn. rewrite !app_nil_r, <- !app_assoc.
    reflexivity.
Qed.

(** X23. When the base store refuses the value, [Put] returns its error
    and does not touch Redis: the only call to the outside is the [Put]
    of the base store. *)
Theorem Put_base_failure (rs : RedisStorageService) (value : bytes)
    (timeout : Z) (st : state W) (w1 : W) (e : error) :
  base_Put value timeout (ext st) = (Some e, w1) ->
  exists st',
    RedisStorageService_Put rs value timeout st = Return (Some e, st')
    /\ ext st' = w1
    /\ outside_calls (trace st')
       = outside_calls (trace st) ++ [Call_base_Put value timeout].
Proof.
  intros Hbase. unfold RedisStorageService_Put.
  unfold bind at 1 2. unfold emit at 1. unfold call at 1. cbn [ext trace].
  rewrite Hbase. unfold ret. eexists. split; [reflexivity|].
  cbn [ext trace]. split; [reflexivity|].
  rewrite !outside_calls_app. cbn. rewrite app_nil_r. reflexivity.
Qed.

(** X24. What [Put] writes to Redis can be read back. When the base
    store accepts the value, the Redis [SET] is made under the tree hash
    of the value, with the configured expiration, and its entry is one
    that [verifyMessageSignature] accepts as the value (the tag being 32
    bytes). *)
Theorem Put_writes_valid_entry (rs : RedisStorageService) (value : bytes)
    (timeout : Z) (st : state W) (w1 : W) :
  base_Put value timeout (ext st) = (None, w1) ->
  length (hmac_keccak256 (signingKey rs) value) = 32%nat ->
  exists r st' entry,
    RedisStorageService_Put rs value timeout st = Return (r, st')
    /\ outside_calls (trace st')
       = outside_calls (trace st)
         ++ [Call_base_Put value timeout;
             Call_redis_Set (dastree_Hash value) entry
               (Expiration (redisConfig rs))]
    /\ verifyMessageSignature rs entry = Ok value.
Proof.
  intros Hbase Hlen.
  assert (Hv : verifyMessageSignature rs (signMessage rs value) = Ok value)
    by (apply verifyMessageSignature_accepts_iff; split; [reflexivity|exact Hlen]).
  unfold RedisStorageService_Put.
  unfold bind at 1 2. unfold emit at 1. unfold call at 1. cbn [ext trace].
  rewrite Hbase. unfold bind at 1. unfold call at 1. cbn [ext trace].
  destruct (client_Set _ _ _ w1) as [[err|] w2].
  - unfold bind, emit, ret. cbn [ext trace].
    eexists. eexists. exists (signMessage rs value).
    split; [reflexivity|]. cbn [trace]. split; [|exact Hv].
    rewrite !outside_calls_app. cbn. rewrite !app_nil_r, <- !app_assoc.
    reflexivity.
  - unfold ret. eexists. eexists. exists (signMessage rs value).
    split; [reflexivity|]. cbn [trace]. split; [|exact Hv].
    rewrite !outside_calls_app. cbn. rewrite !app_nil_r, <- !app_assoc.
    reflexivity.
Qed.

End CacheProperties.

Lemma GetByHash_cache_hit_witness :
  exists st',
    RedisStorageService_GetByHash (client := redis_memory) demo_rs
      (dastree_Hash demo_payload) (init_state cached_store)
    = Return (Ok demo_payload, st')
    /\ ext st' = cached_store
    /\ outside_calls (trace st')
       = outside_calls (trace (init_state cached_store))
         ++ [Call_redis_Get (dastree_Hash demo_payload)].
Proof.
  apply (@GetByHash_cache_hit demo_deps store demo_base redis_memory demo_rs
           (dastree_Hash demo_payload) demo_payload (init_state cached_store)
           cached_store).
  - reflexivity.
  - reflexivity.
Defined.

Lemma GetByHash_base_failure_witness :
  exists st',
    RedisStorageService_GetByHash (client := redis_down) demo_rs
      demo_keyset_hash (init_state (W := store) [])
    = Return (Err (ErrExternal 404), st')
    /\ ext st' = []
    /\ outside_calls (trace st')
       = outside_calls (trace (init_state (W := store) []))
         ++ [Call_redis_Get demo_keyset_hash;
             Call_base_GetByHash demo_keyset_hash].
Proof.
  apply (@GetByHash_base_failure demo_deps store demo_base redis_down demo_rs
           demo_keyset_hash (init_state []) (Err (ErrExternal 111)) [] []
           (ErrExternal 404)).
  - reflexivity.
  - reflexivity.
  - reflexivity.
Defined.

Lemma GetByHash_refresh_writes_valid_entry_witness :
  exists st' entry,
    RedisStorageService_GetByHash (client := redis_memory) demo_rs
      demo_keyset_hash (init_state demo_store)
    = Return (Ok demo_keyset_bytes, st')
    /\ ext st'
       = (demo_keyset_hash, signMessage demo_rs demo_keyset_bytes) :: demo_store
    /\ outside_calls (trace st')
       = outside_calls (trace (init_state demo_store))
         ++ [Call_redis_Get demo_keyset_hash;
             Call_base_GetByHash demo_keyset_hash;
             Call_redis_Set demo_keyset_hash entry
               (Expiration (redisConfig demo_rs))]
    /\ verifyMessageSignature demo_rs entry = Ok demo_keyset_bytes.
Proof.
  apply (@GetByHash_refresh_writes_valid_entry demo_deps store demo_base
           redis_memory demo_rs demo_keyset_hash (init_state demo_store)
           (Ok demo_keyset_bytes) demo_store demo_store).
  - vm_compute. reflexivity.
  - vm_compute. reflexivity.
  - vm_compute. reflexivity.
  - reflexivity.
  - reflexivity.
Defined.

Lemma Put_base_failure_witness :
  exists st',
    RedisStorageService_Put (base := base_full) (client := redis_memory)
      demo_rs [x01] 5 (init_state [])
    = Return (Some (ErrExternal 507), st')
    /\ ext st' = []
    /\ outside_calls (trace st')
       = outside_calls (trace (init_state (W := store) []))
         ++ [Call_base_Put [x01] 5].
Proof.
  apply (@Put_base_failure demo_deps demo_hashing store base_full redis_memory
           demo_rs [x01] 5 (init_state []) [] (ErrExternal 507)).
  reflexivity.
Defined.

Lemma Put_writes_valid_entry_witness :
  exists r st' entry,
    RedisStorageService_Put (base := demo_base) (client := redis_memory)
      demo_rs [x01] 5 (init_state [])
    = Return (r, st')
    /\ outside_calls (trace st')
       = outside_calls (trace (init_state (W := store) []))
         ++ [Call_base_Put [x01] 5;
             Call_redis_Set (dastree_Hash [x01]) entry
               (Expiration (redisConfig demo_rs))]
    /\ verifyMessageSignature demo_rs entry = Ok [x01].
Proof.
  apply (@Put_writes_valid_entry demo_deps demo_hashing store demo_base
           redis_memory demo_rs [x01] 5 (init_state [])
           (snd (base_Put [x01] 5 []))).
  - reflexivity.
  - reflexivity.
Defined.

(* ------------------------------------------------------------------ *)
(** ** The writer for nitro and the keyset of a certificate *)

Section WriterProperties.
Context `{bls : BlsSignatures} `{flags : HeaderFlags}.
Context {W : Type} `{dasWriter : !DASWriter W}.

(** X25. What the writer for nitro posts, the reader for nitro takes up.
    When the DAS writer returns a well-formed certificate, [Store]
    returns bytes whose first byte is a valid header byte and which
    deserialize to that certificate; the tree flag is not among the bits
    of the header flag. *)
Theorem writerForDAS_Store_roundtrip (message : bytes) (timeout : Z)
    (disableFallbackStoreDataOnChain : bool) (st : state W) (w1 : W)
    (cert : DataAvailabilityCertificate) :
  dasWriter_Store message timeout (ext st) = (Ok cert, w1) ->
  IsTreeDASMessageHeaderByte DASMessageHeaderFlag = false ->
  well_formed_cert cert ->
  exists posted,
    writerForDAS_Store message timeout disableFallbackStoreDataOnChain st
    = Return (Ok posted, {| ext := w1; trace := trace st |})
    /\ readerForDAS_IsValidHeaderByte (nth 0 posted x00) = true
    /\ DeserializeDASCertFrom posted = Ok cert.
Proof.
  intros Hstore Hflag Hwf. unfold writerForDAS_Store.
  unfold bind, invoke. rewrite Hstore. unfold ret.
  exists (Serialize cert). split; [reflexivity|]. split.
  - unfold Serialize, readerForDAS_IsValidHeaderByte, IsDASMessageHeaderByte.
    cbn [app nth].
    destruct (version_nonzero (Version cert));
      [apply hasBits_or_l|apply hasBits_self].
  - unfold DeserializeDASCertFrom, run_reader.
    rewrite <- (app_nil_r (Serialize cert)).
    rewrite DeserializeDASCertFrom_Serialize by assumption. reflexivity.
Qed.

End WriterProperties.

Section RecoverKeysetProperties.
Context `{bls : BlsSignatures} `{validation : HashValidation}.
Context {W : Type} `{reader : DASReader W}.


End RecoverKeysetProperties.

Lemma writerForDAS_Store_roundtrip_witness :
  exists posted,
    writerForDAS_Store (dasWriter := demo_writer) [x01] 604800 false
      (init_state demo_store)
    = Return (Ok posted, {| ext := demo_store; trace := [] |})
    /\ readerForDAS_IsValidHeaderByte (nth 0 posted x00) = true
    /\ DeserializeDASCertFrom posted = Ok (demo_cert 604800 1).
Proof.
  apply (@writerForDAS_Store_roundtrip demo_bls demo_flags store demo_writer
           [x01] 604800 false (init_state demo_store) demo_store
           (demo_cert 604800 1)).
  - reflexivity.
  - reflexivity.
  - exact demo_cert_well_formed.
Defined.


(* ------------------------------------------------------------------ *)
(** ** Closing and checking the cache *)

Section RedisAdminProperties.
Context {W : Type} `{base : StorageServiceAdmin W} `{client : RedisClientAdmin W}.

(** X27. [Close] closes the Redis client first, and when that fails it
    returns the error and leaves the base store open: the world is the
    one after the client's [Close] alone. *)
Theorem Close_client_failure (rs : RedisStorageService) (st : state W)
    (w1 : W) (e : error) :
  client_Close (ext st) = (Some e, w1) ->
  RedisStorageService_Close rs st
  = Return (Some e, {| ext := w1; trace := trace st |}).
Proof.
  intros Hc. unfold RedisStorageService_Close, bind, invoke.
  rewrite Hc. reflexivity.
Qed.

(** X28. [HealthCheck] reports no error exactly when the Redis [PING]
    succeeds and the health check of the base store, run after it,
    succeeds too. *)
Theorem HealthCheck_ok_iff (rs : RedisStorageService) (st : state W) :
  (exists st', RedisStorageService_HealthCheck rs st = Return (None, st'))
  <-> fst (client_Ping (ext st)) = None
      /\ fst (base_HealthCheck (snd (client_Ping (ext st)))) = None.
Proof.
  unfold RedisStorageService_HealthCheck, bind, invoke, ret.
  destruct (client_Ping (ext st)) as [[e|] w1]; cbn [fst snd ext].
  - split; [intros [st' H]; discriminate|intros [H _]; discriminate].
  - destruct (base_HealthCheck w1) as [[e|] w2]; cbn [fst].
    + split; [intros [st' H]; discriminate|intros [_ H]; discriminate].
    + split; [intros _; split; reflexivity|intros _; eexists; reflexivity].
Qed.

End RedisAdminProperties.

Lemma Close_client_failure_witness :
  RedisStorageService_Close (W := store) (base := unreachable_admin)
    (client := redis_admin_down) demo_rs (init_state demo_store)
  = Return (Some (ErrExternal 111), {| ext := demo_store; trace := [] |}).
Proof.
  apply (@Close_client_failure store unreachable_admin redis_admin_down
           demo_rs (init_state demo_store) demo_store (ErrExternal 111)).
  reflexivity.
Defined.
